(** * Verification of the DP0.1 tutorial notebooks

    The repository is a set of Jupyter notebooks that drive the LSST Science
    Pipelines, the Butler, a TAP service and several plotting libraries.
    The notebooks' own code is embedded here:

    - [Geom]: the integer boxes built in the source-detection notebook;
    - [Py]: Python values, exceptions, and programs that call external
      libraries, run against an external world;
    - [Pandas]: [sort_dataframe] of the TAP notebook, on data frames;
    - [Helpers]: the functions the notebooks define ([cutout_coadd] twice,
      [remove_figure], [createRGB], [dataIdToString], [sort_dataframe]);
    - [Tap]: the cells that assert, the asynchronous job of the TAP
      notebook with the jobs its service holds, the Firefly display,
      and the calls on which a service may change;
    - [Notebooks]: every notebook as the sequence of steps its cells
      perform, in cell order;
    - [Cells]: further cells with logic of their own: the cutout box at
      any target, the cutouts for the colour image, the loops that break,
      the search for the schema name; and the code around the data
      requests.

    External libraries (lsst.geom, pandas, the Butler, pyvo, astropy) are
    not part of the repository.  Calls into them are answered by a world
    that is a parameter; where a property depends on what a library does,
    its behaviour is a parameter with a contract or a model that says so
    in its comment. *)

From Stdlib Require Import ZArith List Bool Lia Permutation Sorted.
From stdpp Require Import base strings list gmap pretty.

Set Warnings "-register-all,-clear-no-such-hyp".
Local Open Scope Z_scope.

(* ===================================================================== *)
(** * lsst.geom integer boxes (source-detection notebook, section 1.2)    *)
(* ===================================================================== *)

Module Geom.

(** [geom.Point2I(x, y)] and [geom.Extent2I(x, y)]: pairs of integers.
    The library stores them as C++ [int]; a number outside [fits_int] is
    refused when the Python integer is converted.  The operations below
    compute in Z and agree with the library as long as every coordinate
    involved fits. *)
Record Point2I := mkPoint2I { px : Z; py : Z }.
Record Extent2I := mkExtent2I { ex : Z; ey : Z }.

Definition int_min : Z := - 2 ^ 31.
Definition int_max : Z := 2 ^ 31 - 1.
Definition fits_int (z : Z) : Prop := int_min <= z <= int_max.

(** Model of the external class [lsst.geom.Box2I]: an inclusive box of
    pixels, stored as its minimum corner and its dimensions (the number of
    pixels covered along each axis).  The three operations the notebook
    uses follow the library's Box.cc. *)
Record Box2I := mkBox2I { minimum : Point2I; dimensions : Extent2I }.

(** [geom.Box2I()]: the empty box. *)
Definition Box2I_empty : Box2I := mkBox2I (mkPoint2I 0 0) (mkExtent2I 0 0).

Definition isEmpty (b : Box2I) : bool :=
  (ex (dimensions b) =? 0) && (ey (dimensions b) =? 0).

(** [getMax]: the last pixel inside the box, [minimum + dimensions - 1]. *)
Definition getMax (b : Box2I) : Point2I :=
  mkPoint2I (px (minimum b) + ex (dimensions b) - 1)
            (py (minimum b) + ey (dimensions b) - 1).

Definition getMin (b : Box2I) : Point2I := minimum b.
Definition getWidth (b : Box2I) : Z := ex (dimensions b).
Definition getHeight (b : Box2I) : Z := ey (dimensions b).

(** A box all of whose numbers (corners and dimensions) fit in an
    [int]. *)
Definition box_fits (b : Box2I) : Prop :=
  fits_int (px (minimum b)) /\ fits_int (py (minimum b)) /\
  fits_int (ex (dimensions b)) /\ fits_int (ey (dimensions b)) /\
  fits_int (px (getMax b)) /\ fits_int (py (getMax b)).

(** [Box2I(corner, dimensions)], with the library's default [invert=True]:
    a zero dimension gives the empty box, a negative one is flipped. *)
Definition Box2I_of_extent (corner : Point2I) (d : Extent2I) : Box2I :=
  if (ex d =? 0) || (ey d =? 0) then Box2I_empty
  else
    let '(x0, w) := if ex d <? 0 then (px corner + (ex d + 1), - ex d)
                    else (px corner, ex d) in
    let '(y0, h) := if ey d <? 0 then (py corner + (ey d + 1), - ey d)
                    else (py corner, ey d) in
    mkBox2I (mkPoint2I x0 y0) (mkExtent2I w h).

(** [bbox.include(point)]: grow the box until it contains the point. *)
Definition include (b : Box2I) (p : Point2I) : Box2I :=
  if isEmpty b then mkBox2I p (mkExtent2I 1 1)
  else
    let mx := getMax b in
    let x0 := if px p <? px (minimum b) then px p else px (minimum b) in
    let x1 := if px p <? px (minimum b) then px mx
              else if px mx <? px p then px p else px mx in
    let y0 := if py p <? py (minimum b) then py p else py (minimum b) in
    let y1 := if py p <? py (minimum b) then py mx
              else if py mx <? py p then py p else py mx in
    mkBox2I (mkPoint2I x0 y0) (mkExtent2I (1 + x1 - x0) (1 + y1 - y0)).

(** A pixel lies in a box when it is between the two corners. *)
Definition contains (b : Box2I) (p : Point2I) : bool :=
  negb (isEmpty b) &&
  (px (minimum b) <=? px p) && (px p <=? px (getMax b)) &&
  (py (minimum b) <=? py p) && (py p <=? py (getMax b)).

(** The cell of section 1.2:
<<
    bbox = geom.Box2I()
    bbox.include(geom.Point2I(xmin, ymin))
    bbox.include(geom.Point2I(xmin + width, ymin + height))
>> *)
Definition bbox_by_include (xmin ymin width height : Z) : Box2I :=
  let bbox := Box2I_empty in
  let bbox := include bbox (mkPoint2I xmin ymin) in
  let bbox := include bbox (mkPoint2I (xmin + width) (ymin + height)) in
  bbox.

(** The commented-out line of the same cell:
<<
    # An alternative way to defined the same cutout region
    # bbox = geom.Box2I(geom.Point2I(xmin, ymin), geom.Extent2I(width, height))
>> *)
Definition bbox_by_extent (xmin ymin width height : Z) : Box2I :=
  Box2I_of_extent (mkPoint2I xmin ymin) (mkExtent2I width height).

(** The values the cell starts from. *)
Definition x_target : Z := 1700.
Definition y_target : Z := 2100.
Definition width : Z := 400.
Definition height : Z := 400.
Definition xmin : Z := x_target - width `div` 2.
Definition ymin : Z := y_target - height `div` 2.

Definition cutout_bbox : Box2I := bbox_by_include xmin ymin width height.
Definition cutout_bbox_alternative : Box2I :=
  bbox_by_extent xmin ymin width height.

End Geom.

(* ===================================================================== *)
(** * Python values, exceptions and outcomes                              *)
(* ===================================================================== *)

Module Py.

(** The values the notebooks' own code handles.  A string is a Python
    str of ASCII characters.  A float is kept as its repr, the text
    Python's [str] gives for it (the float written 1e3 is
    [VFloat "1000.0"]); the float literals of the notebooks are written
    in that form, and no float arithmetic is done by notebook code on its
    own.  Objects created by an external library (a Butler, an exposure,
    a numpy array, a float computed by a library) are opaque: [VObj]. *)
Inductive val : Type :=
| VNone
| VBool (b : bool)
| VInt (n : Z)
| VFloat (repr : string)
| VStr (s : string)
| VList (l : list val)
| VDict (d : list (string * val))
| VObj (o : N).

(** Exceptions: the one the notebooks raise themselves ([assert]), the
    ones of Python's built-in operations, and the ones raised inside
    external libraries. *)
Inductive exn : Type :=
| AssertionError
| IndexError
| TypeError
| KeyError (key : string)
| ValueError (msg : string)
| ExtError (name : string).

Inductive outcome (A : Type) : Type :=
| Ok (a : A)
| Raised (e : exn).
Arguments Ok {A} a.
Arguments Raised {A} e.

Definition obind {A B} (m : outcome A) (f : A -> outcome B) : outcome B :=
  match m with
  | Ok a => f a
  | Raised e => Raised e
  end.

(** ** Programs that call external libraries

    A piece of notebook code is a tree: it returns, raises, or calls an
    external function or method with positional and keyword arguments
    and continues with the value returned.  A method call passes the
    receiver as first positional argument.  There is no constructor for
    catching an exception: the notebooks contain no [try]. *)
Inductive prog (A : Type) : Type :=
| Ret (a : A)
| Call (f : string) (args : list val) (kwargs : list (string * val))
       (k : val -> prog A)
| Raise (e : exn).
Arguments Ret {A} a.
Arguments Call {A} f args kwargs k.
Arguments Raise {A} e.

Fixpoint bind {A B} (p : prog A) (f : A -> prog B) : prog B :=
  match p with
  | Ret a => f a
  | Call g args kwargs k => Call g args kwargs (fun v => bind (k v) f)
  | Raise e => Raise e
  end.

Notation "x <- p ;; q" := (bind p (fun x => q))
  (at level 100, p at next level, right associativity).
Notation "p ;;; q" := (bind p (fun _ => q))
  (at level 100, right associativity).

Definition call (f : string) (args : list val) (kwargs : list (string * val))
  : prog val := Call f args kwargs Ret.

(** [obj.name] on an external object, and [obj.name(args, kwargs)]. *)
Definition attr (obj : val) (name : string) : prog val :=
  call ("." ++ name) [obj] [].
Definition method (obj : val) (name : string) (args : list val)
    (kwargs : list (string * val)) : prog val :=
  call name (obj :: args) kwargs.

(** [assert b] *)
Definition py_assert (b : bool) : prog unit :=
  if b then Ret tt else Raise AssertionError.

(** [for x in l: body x] over a Python list. *)
Fixpoint for_each {A} (l : list A) (body : A -> prog unit) : prog unit :=
  match l with
  | [] => Ret tt
  | x :: l' => body x ;;; for_each l' body
  end.

(** Iterating over a value: a list yields its elements; an external
    iterable is asked for them. *)
Definition py_iter (v : val) : prog (list val) :=
  match v with
  | VList l => Ret l
  | VObj _ => r <- call "iter" [v] [] ;;
              match r with
              | VList l => Ret l
              | _ => Raise TypeError
              end
  | _ => Raise TypeError
  end.

(** [x is None], [x is not None], [x == n], [x == s]. *)
Definition is_none (v : val) : bool :=
  match v with VNone => true | _ => false end.
Definition eq_int (v : val) (n : Z) : bool :=
  match v with VInt m => m =? n | _ => false end.
Definition eq_str (v : val) (s : string) : bool :=
  match v with VStr t => String.eqb t s | _ => false end.

(** [x[i]] with a literal index: characters of a string, elements of a
    list (negative indices count from the end), or the external object's
    own indexing. *)
Definition py_getitem (x : val) (i : Z) : prog val :=
  match x with
  | VStr s =>
      let n := Z.of_nat (String.length s) in
      let j := if i <? 0 then i + n else i in
      if (0 <=? j) && (j <? n)
      then Ret (VStr (String.substring (Z.to_nat j) 1 s))
      else Raise IndexError
  | VList l =>
      let n := Z.of_nat (length l) in
      let j := if i <? 0 then i + n else i in
      if (0 <=? j) && (j <? n)
      then match nth_error l (Z.to_nat j) with
           | Some v => Ret v
           | None => Raise IndexError
           end
      else Raise IndexError
  | VObj _ => call "__getitem__" [x; VInt i] []
  | _ => Raise TypeError
  end.

(** [str(v)] for the values whose text Python itself determines; other
    values are converted by their own library. *)
Definition py_str (v : val) : prog string :=
  match v with
  | VNone => Ret "None"
  | VBool true => Ret "True"
  | VBool false => Ret "False"
  | VInt n => Ret (pretty n)
  | VFloat repr => Ret repr
  | VStr s => Ret s
  | _ => r <- call "str" [v] [] ;;
         match r with
         | VStr s => Ret s
         | _ => Raise TypeError
         end
  end.

(** [s.strip()]: leading and trailing white space removed.  Among the
    ASCII characters, [str.isspace] holds of the space, of tab to
    carriage return (9 to 13) and of the four separators 28 to 31. *)
Definition is_space (c : Ascii.ascii) : bool :=
  let n := Ascii.nat_of_ascii c in
  (Nat.eqb n 32) || ((Nat.leb 9 n) && (Nat.leb n 13))
  || ((Nat.leb 28 n) && (Nat.leb n 31)).

(** Text made of ASCII characters only; on such text the characters of
    the model are the characters of the Python str. *)
Fixpoint ascii_text (s : string) : bool :=
  match s with
  | EmptyString => true
  | String c s' => Nat.ltb (Ascii.nat_of_ascii c) 128 && ascii_text s'
  end.

Fixpoint lstrip (s : string) : string :=
  match s with
  | String c s' => if is_space c then lstrip s' else s
  | EmptyString => EmptyString
  end.

Fixpoint rstrip (s : string) : string :=
  match s with
  | String c s' =>
      match rstrip s' with
      | EmptyString => if is_space c then EmptyString else String c EmptyString
      | t => String c t
      end
  | EmptyString => EmptyString
  end.

Definition strip (s : string) : string := rstrip (lstrip s).

(** ** Running a program against the external world

    The world answers every call with a value or an exception and may
    change its own state [S].  A run yields the outcome, the final state
    and the calls made, in order, each with the answer it got. *)
Record call_record := mkCall {
  callee : string;
  call_args : list val;
  call_kwargs : list (string * val);
  response : outcome val
}.

Definition world (S : Type) : Type :=
  S -> string -> list val -> list (string * val) -> outcome val * S.

Fixpoint run {S A} (w : world S) (p : prog A) (s : S)
  : outcome A * S * list call_record :=
  match p with
  | Ret a => (Ok a, s, [])
  | Raise e => (Raised e, s, [])
  | Call f args kwargs k =>
      let '(r, s1) := w s f args kwargs in
      match r with
      | Ok v =>
          let '(o, s2, tr) := run w (k v) s1 in
          (o, s2, mkCall f args kwargs r :: tr)
      | Raised e => (Raised e, s1, [mkCall f args kwargs r])
      end
  end.

Definition result {S A} (x : outcome A * S * list call_record) : outcome A :=
  fst (fst x).
Definition final {S A} (x : outcome A * S * list call_record) : S :=
  snd (fst x).
Definition trace {S A} (x : outcome A * S * list call_record)
  : list call_record := snd x.

(** A world used in examples: every call is answered with the same
    opaque object. *)
Definition quiet_example : world unit := fun s _ _ _ => (Ok (VObj 0), s).

(** A call that the world answered with a value. *)
Definition answered (c : call_record) : Prop :=
  exists v, response c = Ok v.

(** What a program returns is [None] or a value an external call returned
    to it. *)
Definition returns_call_result (p : prog val) : Prop :=
  forall (S : Type) (w : world S) (s s' : S) (v : val) (tr : list call_record),
    run w p s = (Ok v, s', tr) ->
    v = VNone \/ Exists (fun c => response c = Ok v) tr.

(** Values whose text [str] determines without a library. *)
Definition scalar (v : val) : bool :=
  match v with
  | VNone | VBool _ | VInt _ | VFloat _ | VStr _ => true
  | _ => false
  end.

(** The program raises only through [assert]. *)
Inductive asserts_only {A} : prog A -> Prop :=
| ao_ret a : asserts_only (Ret a)
| ao_call f args kwargs k :
    (forall v, asserts_only (k v)) -> asserts_only (Call f args kwargs k)
| ao_assert : asserts_only (Raise AssertionError).

End Py.

(* ===================================================================== *)
(** * sort_dataframe (TAP notebook, section 1.1)                          *)
(* ===================================================================== *)

Module Pandas.
Import Py.

(** A pandas DataFrame: the column names, and the rows in their current
    order, each with its index label and its cells in column order. *)
Definition row : Type := Z * list Z.
Record DataFrame := mkDataFrame { columns : list string; rows : list row }.

Definition label (r : row) : Z := fst r.
Definition cells (r : row) : list Z := snd r.

(** The positions at which a label occurs among the column labels, and
    a row's cell at a position.  pandas allows a label to be repeated. *)
Fixpoint col_positions (c : string) (cols : list string) : list nat :=
  match cols with
  | [] => []
  | c' :: cols' =>
      (if String.eqb c c' then [O] else []) ++ map S (col_positions c cols')
  end.

Definition cell (p : nat) (r : row) : Z := nth p (cells r) 0.

(** The frame has exactly one column with this label. *)
Definition one_column (c : string) (df : DataFrame) : Prop :=
  exists p, col_positions c (columns df) = [p].

(** A row's value in the one column of that name. *)
Definition column_key (c : string) (df : DataFrame) (r : row) : Z :=
  match col_positions c (columns df) with
  | [p] => cell p r
  | _ => 0
  end.

(** [len(df)] *)
Definition len (df : DataFrame) : Z := Z.of_nat (length (rows df)).

(** [range(n)] as the list 0, 1, ..., n-1. *)
Definition range (n : Z) : list Z := seqZ 0 n.

(** Rows given new index labels, one per row; their cells are kept. *)
Definition with_labels (keys : list Z) (l : list row) : list row :=
  @zip_with Z row row (fun k r => (k, cells r)) keys l.

Section SortDataframe.

(** [DataFrame.sort_values] reorders the rows by a column with numpy's
    argsort; the notebook leaves [kind] at pandas' default, which does
    not promise an order among rows with equal keys.  The reordering is
    therefore a parameter; [sort_contract] is what every kind
    guarantees. *)
Variable sort_by : (row -> Z) -> list row -> list row.

(** [df.sort_values(by)]: a new frame; KeyError without a column of that
    label, ValueError when the label is not unique. *)
Definition sort_values (by_ : string) (df : DataFrame) : outcome DataFrame :=
  match col_positions by_ (columns df) with
  | [] => Raised (KeyError by_)
  | [p] => Ok (mkDataFrame (columns df) (sort_by (cell p) (rows df)))
  | _ :: _ :: _ =>
      Raised (ValueError ("The column label '" +:+ by_ +:+ "' is not unique."))
  end.

(** [df.set_index(keys, inplace=True)] with an array of labels. *)
Definition set_index (keys : list Z) (df : DataFrame) : outcome DataFrame :=
  if Nat.eqb (length keys) (length (rows df))
  then Ok (mkDataFrame (columns df) (with_labels keys (rows df)))
  else Raised (ValueError "Length mismatch").

(**
<<
  def sort_dataframe(df, sort_key='objectid'):
      df = df.sort_values('objectId')
      df.set_index(np.array(range(len(df))), inplace=True)
      return df
>> *)
Definition sort_dataframe (df : DataFrame) (sort_key : val) : outcome DataFrame :=
  obind (sort_values "objectId" df) (fun df =>
  obind (set_index (range (len df)) df) (fun df =>
  Ok df)).

End SortDataframe.

(** The default of the second parameter. *)
Definition sort_key_default : val := VStr "objectid".

(** Rows compared by a key. *)
Definition key_le (key : row -> Z) : row -> row -> Prop :=
  fun a b => key a <= key b.

(** What every sorting kind guarantees: the rows are rearranged, and come
    out in nondecreasing key order. *)
Definition sort_contract (sort_by : (row -> Z) -> list row -> list row) : Prop :=
  forall key l,
    Permutation (sort_by key l) l /\
    Sorted (key_le key) (sort_by key l).

(** A sort that leaves an already sorted list as it is, as a stable
    sort does; the contract does not promise it. *)
Definition keeps_sorted (sort_by : (row -> Z) -> list row -> list row) : Prop :=
  forall key l, Sorted (key_le key) l -> sort_by key l = l.

(** Two sorts that meet the contract: insertion sort placing a row before
    ([ties_first = true], a stable sort) or after ([false]) the rows that
    have the same key and are already placed. *)
Fixpoint insert_row (ties_first : bool) (key : row -> Z) (x : row)
    (l : list row) : list row :=
  match l with
  | [] => [x]
  | y :: l' =>
      if (if ties_first then key x <=? key y else key x <? key y)
      then x :: y :: l'
      else y :: insert_row ties_first key x l'
  end.

Definition insertion_sort (ties_first : bool) (key : row -> Z)
    (l : list row) : list row :=
  foldr (insert_row ties_first key) [] l.

(** The frames used as examples: two rows with the same objectId. *)
Definition frame_with_tie : DataFrame :=
  mkDataFrame ["objectId"; "mag_r"] [(0, [7; 21]); (1, [7; 22])].

Definition frame_three : DataFrame :=
  mkDataFrame ["ra"; "objectId"] [(10, [62; 9]); (11, [61; 4]); (12, [63; 6])].

(** A frame in which two columns are labelled objectId, as a merge of
    two catalogues gives. *)
Definition frame_two_ids : DataFrame :=
  mkDataFrame ["objectId"; "objectId"] [(0, [2; 5]); (1, [1; 4])].

End Pandas.

(* ===================================================================== *)
(** * The functions the notebooks define                                  *)
(* ===================================================================== *)

Module Helpers.
Import Py.

(** Defaults shared by the two definitions of [cutout_coadd]:
    [band='r', datasetType='deepCoadd', skymap=None, cutoutSideLength=51]. *)
Definition band_default : val := VStr "r".
Definition datasetType_default : val := VStr "deepCoadd".
Definition skymap_default : val := VNone.
Definition cutoutSideLength_default : val := VInt 51.

(** Notebook "Introduction to the Butler", section 3.2. *)
Module ButlerIntro.

(**
<<
    def cutout_coadd(butler, ra, dec, band='r', datasetType='deepCoadd',
                     skymap=None, cutoutSideLength=51, **kwargs):
        radec = geom.SpherePoint(ra, dec, geom.degrees)
        cutoutSize = geom.ExtentI(cutoutSideLength, cutoutSideLength)

        if skymap is None:
            skymap = butler.get("skyMap")

        # Look up the tract, patch for the RA, Dec
        tractInfo = skymap.findTract(radec)
        patchInfo = tractInfo.findPatch(radec)
        xy = geom.PointI(tractInfo.getWcs().skyToPixel(radec))
        bbox = geom.BoxI(xy - cutoutSize//2, cutoutSize)
        patch = tractInfo.getSequentialPatchIndex(patchInfo)

        coaddId = {'tract': tractInfo.getId(), 'patch': patch, 'band': band}
        parameters = {'bbox':bbox}

        cutout_image = butler.get(datasetType, parameters=parameters, dataId=coaddId)

        return cutout_image
>> *)
Definition cutout_coadd
    (butler ra dec band datasetType skymap cutoutSideLength : val)
  : prog val :=
  (* geom.degrees is read from the module before SpherePoint is called *)
  degrees <- call "geom.degrees" [] [] ;;
  radec <- call "geom.SpherePoint" [ra; dec; degrees] [] ;;
  cutoutSize <- call "geom.ExtentI" [cutoutSideLength; cutoutSideLength] [] ;;
  skymap <- (if is_none skymap
             then method butler "get" [VStr "skyMap"] []
             else Ret skymap) ;;
  tractInfo <- method skymap "findTract" [radec] [] ;;
  patchInfo <- method tractInfo "findPatch" [radec] [] ;;
  wcs <- method tractInfo "getWcs" [] [] ;;
  pixel <- method wcs "skyToPixel" [radec] [] ;;
  xy <- call "geom.PointI" [pixel] [] ;;
  half <- call "__floordiv__" [cutoutSize; VInt 2] [] ;;
  corner <- call "__sub__" [xy; half] [] ;;
  bbox <- call "geom.BoxI" [corner; cutoutSize] [] ;;
  patch <- method tractInfo "getSequentialPatchIndex" [patchInfo] [] ;;
  tract <- method tractInfo "getId" [] [] ;;
  let coaddId := VDict [("tract", tract); ("patch", patch); ("band", band)] in
  let parameters := VDict [("bbox", bbox)] in
  cutout_image <- method butler "get" [datasetType]
                    [("parameters", parameters); ("dataId", coaddId)] ;;
  Ret cutout_image.

End ButlerIntro.

(** Notebook "Basic image display": sections 1, 2.3 and 3. *)
Module ImageDisplay.

(**
<<
    def remove_figure(fig):
        for ax in fig.get_axes():
            for im in ax.get_images():
                im.remove()
        fig.clf()      # clear the figure
        plt.close(fig) # close the figure
        gc.collect()   # call the garbage collector
>> *)
Definition remove_figure (fig : val) : prog val :=
  axes <- method fig "get_axes" [] [] ;;
  axes <- py_iter axes ;;
  for_each axes (fun ax =>
    images <- method ax "get_images" [] [] ;;
    images <- py_iter images ;;
    for_each images (fun im => method im "remove" [] [] ;;; Ret tt)) ;;;
  method fig "clf" [] [] ;;;
  call "plt.close" [fig] [] ;;;
  call "gc.collect" [] [] ;;;
  Ret VNone.

(**
<<
    def cutout_coadd(butler, ra, dec, band='r', datasetType='deepCoadd',
                     skymap=None, cutoutSideLength=51, **kwargs):
        radec = geom.SpherePoint(ra, dec, geom.degrees)
        cutoutSize = geom.ExtentI(cutoutSideLength, cutoutSideLength)

        if skymap is None:
            skymap = butler.get("skyMap")

        # Look up the tract, patch for the RA, Dec
        tractInfo = skymap.findTract(radec)
        patchInfo = tractInfo.findPatch(radec)
        xy = geom.PointI(tractInfo.getWcs().skyToPixel(radec))
        bbox = geom.BoxI(xy - cutoutSize // 2, cutoutSize)
        patch = tractInfo.getSequentialPatchIndex(patchInfo)

        coaddId = {'tract': tractInfo.getId(), 'patch': patch, 'band': band}
        parameters = {'bbox': bbox}

        cutout_image = butler.get(datasetType, parameters=parameters, dataId=coaddId)

        return cutout_image
>> *)
Definition cutout_coadd
    (butler ra dec band datasetType skymap cutoutSideLength : val)
  : prog val :=
  (* geom.degrees is read from the module before SpherePoint is called *)
  degrees <- call "geom.degrees" [] [] ;;
  radec <- call "geom.SpherePoint" [ra; dec; degrees] [] ;;
  cutoutSize <- call "geom.ExtentI" [cutoutSideLength; cutoutSideLength] [] ;;
  skymap <- (if is_none skymap
             then method butler "get" [VStr "skyMap"] []
             else Ret skymap) ;;
  tractInfo <- method skymap "findTract" [radec] [] ;;
  patchInfo <- method tractInfo "findPatch" [radec] [] ;;
  wcs <- method tractInfo "getWcs" [] [] ;;
  pixel <- method wcs "skyToPixel" [radec] [] ;;
  xy <- call "geom.PointI" [pixel] [] ;;
  half <- call "__floordiv__" [cutoutSize; VInt 2] [] ;;
  corner <- call "__sub__" [xy; half] [] ;;
  bbox <- call "geom.BoxI" [corner; cutoutSize] [] ;;
  patch <- method tractInfo "getSequentialPatchIndex" [patchInfo] [] ;;
  tract <- method tractInfo "getId" [] [] ;;
  let coaddId := VDict [("tract", tract); ("patch", patch); ("band", band)] in
  let parameters := VDict [("bbox", bbox)] in
  cutout_image <- method butler "get" [datasetType]
                    [("parameters", parameters); ("dataId", coaddId)] ;;
  Ret cutout_image.

(** [image[bgr[i]].array], the expression [createRGB] uses for each
    channel. *)
Definition band_array (image bgr : val) (i : Z) : prog val :=
  band <- py_getitem bgr i ;;
  plane <- call "__getitem__" [image; band] [] ;;
  attr plane "array".

(** [array * scale[j]] *)
Definition rescaled (array scale : val) (j : Z) : prog val :=
  factor <- py_getitem scale j ;;
  call "__mul__" [array; factor] [].

(**
<<
    def createRGB(image, bgr="gri", stretch=1, Q=10, scale=None):
        # If the image only has 3 bands, reverse the order of the bands
        #   to produce the RGB image
        if len(image) == 3:
            bgr = image.filters

        if scale is None:
            r_im = image[bgr[2]].array  # numpy array for the r channel
            g_im = image[bgr[1]].array  # numpy array for the g channel
            b_im = image[bgr[0]].array  # numpy array for the b channel
        else:
            # manually re-scaling the images here
            r_im = image[bgr[2]].array * scale[0]
            g_im = image[bgr[1]].array * scale[1]
            b_im = image[bgr[0]].array * scale[2]

        rgb = make_lupton_rgb(image_r=r_im,
                              image_g=g_im,
                              image_b=b_im,
                              stretch=stretch, Q=Q)
        return rgb
>> *)
Definition createRGB (image bgr stretch Q scale : val) : prog val :=
  n <- call "len" [image] [] ;;
  bgr <- (if eq_int n 3 then attr image "filters" else Ret bgr) ;;
  channels <-
    (if is_none scale then
       r_im <- band_array image bgr 2 ;;
       g_im <- band_array image bgr 1 ;;
       b_im <- band_array image bgr 0 ;;
       Ret (r_im, g_im, b_im)
     else
       r_im <- (a <- band_array image bgr 2 ;; rescaled a scale 0) ;;
       g_im <- (a <- band_array image bgr 1 ;; rescaled a scale 1) ;;
       b_im <- (a <- band_array image bgr 0 ;; rescaled a scale 2) ;;
       Ret (r_im, g_im, b_im)) ;;
  let '(r_im, g_im, b_im) := channels in
  rgb <- call "make_lupton_rgb" []
           [("image_r", r_im); ("image_g", g_im); ("image_b", b_im);
            ("stretch", stretch); ("Q", Q)] ;;
  Ret rgb.

Definition bgr_default : val := VStr "gri".
Definition stretch_default : val := VInt 1.
Definition Q_default : val := VInt 10.
Definition scale_default : val := VNone.

End ImageDisplay.

(** Notebook "Interactive image visualization", section 2.1. *)
Module HoloViz.

(**
<<
    def dataIdToString(dataId: dict) -> str:
        title = "DC2 image: "
        for key, value in dataId.items():
            title += str(key) + ": " + str(value) + " "
        return title.strip()
>>
    [dataId] is given by its items, in the dictionary's order. *)
Fixpoint dataIdToString_loop (title : string) (items : list (string * val))
  : prog string :=
  match items with
  | [] => Ret title
  | (key, value) :: items' =>
      text <- py_str value ;;
      dataIdToString_loop (title +:+ key +:+ ": " +:+ text +:+ " ") items'
  end.

Definition dataIdToString (dataId : list (string * val)) : prog val :=
  title <- dataIdToString_loop "DC2 image: " dataId ;;
  Ret (VStr (strip title)).

(** The dataId the notebook gives it:
    [calexpId = {'visit': 192350, 'detector': 175, 'band': 'i'}]. *)
Definition calexpId : list (string * val) :=
  [("visit", VInt 192350); ("detector", VInt 175); ("band", VStr "i")].

(** Section 1.2 of the same notebook:
<<
    calexpId = {'visit': 192350, 'detector': 175, 'band': 'i'}
    calexp = butler.get('calexp', calexpId)
    assert calexp is not None
    print(f"Visit: {calexp.info.getId()}, Band:{calexp.getFilterLabel().bandLabel}, Detector: {calexp.detector.getId()}")
>> *)
Definition cell_get_calexp (butler : val) : prog val :=
  calexp <- method butler "get" [VStr "calexp"; VDict calexpId] [] ;;
  py_assert (negb (is_none calexp)) ;;;
  info <- attr calexp "info" ;;
  visit <- method info "getId" [] [] ;;
  visit <- call "format" [visit] [] ;;
  label <- method calexp "getFilterLabel" [] [] ;;
  band <- attr label "bandLabel" ;;
  band <- call "format" [band] [] ;;
  detector <- attr calexp "detector" ;;
  detector <- method detector "getId" [] [] ;;
  detector <- call "format" [detector] [] ;;
  call "print" [VStr "Visit: "; visit; VStr ", Band:"; band;
                VStr ", Detector: "; detector] [] ;;;
  Ret calexp.

(**
<<
    coaddId = {'tract': 4226, 'patch': 17, 'band': 'r'}
    coadd = butler.get('deepCoadd', coaddId)
    assert coadd is not None
>> *)
Definition coaddId : list (string * val) :=
  [("tract", VInt 4226); ("patch", VInt 17); ("band", VStr "r")].

Definition cell_get_coadd (butler : val) : prog val :=
  coadd <- method butler "get" [VStr "deepCoadd"; VDict coaddId] [] ;;
  py_assert (negb (is_none coadd)) ;;;
  Ret coadd.

End HoloViz.

(** Notebook "Intermediate TAP queries", section 1.1, with pandas as an
    external library. *)
Module TapQueries.

(**
<<
    def sort_dataframe(df, sort_key='objectid'):
        df = df.sort_values('objectId')
        df.set_index(np.array(range(len(df))), inplace=True)
        return df
>> *)
Definition sort_dataframe (df sort_key : val) : prog val :=
  df <- method df "sort_values" [VStr "objectId"] [] ;;
  n <- call "len" [df] [] ;;
  labels <- call "range" [n] [] ;;
  labels <- call "np.array" [labels] [] ;;
  method df "set_index" [labels] [("inplace", VBool true)] ;;;
  Ret df.

Definition sort_key_default : val := VStr "objectid".

End TapQueries.

End Helpers.

(* ===================================================================== *)
(** * Remote services: the TAP cells and job, the Firefly display         *)
(* ===================================================================== *)

Module Tap.
Import Py Helpers.

(** [x.to_table().to_pandas()] *)
Definition to_pandas (x : val) : prog val :=
  t <- method x "to_table" [] [] ;;
  method t "to_pandas" [] [].

(** Section 1.2:
<<
    service = get_tap_service()
    assert service is not None
    assert service.baseurl == "https://data.lsst.cloud/api/tap"
>> *)
Definition cell_get_service : prog val :=
  service <- call "get_tap_service" [] [] ;;
  py_assert (negb (is_none service)) ;;;
  baseurl <- attr service "baseurl" ;;
  py_assert (eq_str baseurl "https://data.lsst.cloud/api/tap") ;;;
  Ret service.

(** Section 2.1, with [max_rec = 5]:
<<
    results = service.search(query)
    assert len(results) == max_rec
>> *)
Definition max_rec : Z := 5.

Definition cell_search_top (service query : val) : prog val :=
  results <- method service "search" [query] [] ;;
  n <- call "len" [results] [] ;;
  py_assert (eq_int n max_rec) ;;;
  Ret results.

(**
<<
    results1 = service.search(query, maxrec=max_rec)
    assert len(results1) == max_rec
>> *)
Definition cell_search_maxrec (service query : val) : prog val :=
  results1 <- method service "search" [query] [("maxrec", VInt max_rec)] ;;
  n <- call "len" [results1] [] ;;
  py_assert (eq_int n max_rec) ;;;
  Ret results1.

(**
<<
    assert_frame_equal(sort_dataframe(results.to_table().to_pandas()),
                       sort_dataframe(results1.to_table().to_pandas()))
>> *)
Definition cell_compare_frames (results results1 : val) : prog unit :=
  a <- to_pandas results ;;
  a <- TapQueries.sort_dataframe a TapQueries.sort_key_default ;;
  b <- to_pandas results1 ;;
  b <- TapQueries.sort_dataframe b TapQueries.sort_key_default ;;
  call "assert_frame_equal" [a; b] [] ;;;
  Ret tt.

(** Sections 2.2 and 2.3:
<<
    results = service.search(query).to_table().to_pandas()
    assert len(results) == 15670          # 14424 for the joined query
>> *)
Definition cell_search_count (service query : val) (expected : Z) : prog val :=
  r <- method service "search" [query] [] ;;
  results <- to_pandas r ;;
  n <- call "len" [results] [] ;;
  py_assert (eq_int n expected) ;;;
  Ret results.

(** Section 4.1:
<<
    job = service.submit_job(query)
    print('Job URL is', job.url)
    print('Job phase is', job.phase)
>> *)
Definition cell_submit (service query : val) : prog val :=
  job <- method service "submit_job" [query] [] ;;
  url <- attr job "url" ;;
  call "print" [VStr "Job URL is"; url] [] ;;;
  phase <- attr job "phase" ;;
  call "print" [VStr "Job phase is"; phase] [] ;;;
  Ret job.

(** [job.run()] *)
Definition cell_run (job : val) : prog unit :=
  method job "run" [] [] ;;; Ret tt.

(**
<<
    job.wait(phases=['COMPLETED', 'ERROR'])
    print('Job phase is', job.phase)
>> *)
Definition cell_wait (job : val) : prog unit :=
  method job "wait" []
    [("phases", VList [VStr "COMPLETED"; VStr "ERROR"])] ;;;
  phase <- attr job "phase" ;;
  call "print" [VStr "Job phase is"; phase] [] ;;;
  Ret tt.

(** [job.raise_if_error()] *)
Definition cell_raise_if_error (job : val) : prog unit :=
  method job "raise_if_error" [] [] ;;; Ret tt.

(**
<<
    async_results = job.fetch_result()
    assert len(async_results) == 14424
    assert_frame_equal(sort_dataframe(results),
                       sort_dataframe(async_results.to_table().to_pandas()))
>> *)
Definition cell_fetch (job results : val) : prog val :=
  async_results <- method job "fetch_result" [] [] ;;
  n <- call "len" [async_results] [] ;;
  py_assert (eq_int n 14424) ;;;
  a <- TapQueries.sort_dataframe results TapQueries.sort_key_default ;;
  b <- to_pandas async_results ;;
  b <- TapQueries.sort_dataframe b TapQueries.sort_key_default ;;
  call "assert_frame_equal" [a; b] [] ;;;
  Ret async_results.

(** Section 4.2:
<<
    retrieved_job = retrieve_query(job.url)
    retrieved_results = retrieved_job.fetch_result()
    assert len(retrieved_results) == 14424
    assert_frame_equal(sort_dataframe(retrieved_results.to_table().to_pandas()),
                       sort_dataframe(async_results.to_table().to_pandas()))
>> *)
Definition cell_retrieve (job async_results : val) : prog val :=
  url <- attr job "url" ;;
  retrieved_job <- call "retrieve_query" [url] [] ;;
  retrieved_results <- method retrieved_job "fetch_result" [] [] ;;
  n <- call "len" [retrieved_results] [] ;;
  py_assert (eq_int n 14424) ;;;
  a <- to_pandas retrieved_results ;;
  a <- TapQueries.sort_dataframe a TapQueries.sort_key_default ;;
  b <- to_pandas async_results ;;
  b <- TapQueries.sort_dataframe b TapQueries.sort_key_default ;;
  call "assert_frame_equal" [a; b] [] ;;;
  Ret retrieved_results.

(** Section 4.3: [job.delete()] *)
Definition cell_delete (job : val) : prog unit :=
  method job "delete" [] [] ;;; Ret tt.

(** Section 4 from submission to deletion. *)
Definition async_section (service query results : val) : prog unit :=
  job <- cell_submit service query ;;
  cell_run job ;;;
  cell_wait job ;;;
  cell_raise_if_error job ;;;
  async_results <- cell_fetch job results ;;
  cell_retrieve job async_results ;;;
  cell_delete job.

(** The cells of the repository that contain an [assert], and the call of
    [raise_if_error], each as a program of its own. *)
Definition checking_cells
    (butler service query results results1 job async_results : val)
  : list (prog unit) :=
  [ cell_get_service ;;; Ret tt;
    cell_search_top service query ;;; Ret tt;
    cell_search_maxrec service query ;;; Ret tt;
    cell_compare_frames results results1;
    cell_search_count service query 15670 ;;; Ret tt;
    cell_search_count service query 14424 ;;; Ret tt;
    cell_raise_if_error job;
    cell_fetch job results ;;; Ret tt;
    cell_retrieve job async_results ;;; Ret tt;
    HoloViz.cell_get_calexp butler ;;; Ret tt;
    HoloViz.cell_get_coadd butler ;;; Ret tt ].

(** ** The jobs held by the TAP service

    Model of the external service, after the notebook's own description of
    section 4: "Create and submit the job. This step does not run the
    query yet"; "Run the job"; "wait for the job to finish"; "you can
    delete the job and the results from the server".  The service keeps,
    for every job, its query and whether it was started.  The time a
    started query takes on the server is not modelled: a started job is
    found completed when it is next looked at.  Only [submit_job], [run]
    and [delete] change what the service holds. *)
Record job_state := mkJob { job_query : val; job_started : bool }.

Definition job_phase (job : job_state) : string :=
  if job_started job then "COMPLETED" else "PENDING".

Record service_state := mkService {
  next_job : N;
  jobs : gmap N job_state
}.

Definition no_jobs : service_state := mkService 0 ∅.

Definition job_url (j : N) : string :=
  "https://data.lsst.cloud/api/tap/async/" +:+ pretty j.

Definition start_job (j : N) (st : service_state) : service_state :=
  mkService (next_job st)
            (alter (fun job => mkJob (job_query job) true) j (jobs st)).

Definition find_job (url : string) (st : service_state) : option N :=
  fst <$> head (filter (fun '(j, _) => job_url j = url) (map_to_list (jobs st))).

Definition job_call (f : string) (j : N) (st : service_state)
  : outcome val * service_state :=
  match jobs st !! j with
  | Some job =>
      if String.eqb f ".url" then (Ok (VStr (job_url j)), st)
      else if String.eqb f ".phase" then (Ok (VStr (job_phase job)), st)
      else if String.eqb f "run" then (Ok (VObj j), start_job j st)
      else if String.eqb f "wait" then (Ok (VObj j), st)
      else if String.eqb f "raise_if_error" then (Ok VNone, st)
      else if String.eqb f "fetch_result" then
        (if job_started job
         then Ok (VObj j) else Raised (ExtError "DALServiceError"), st)
      else if String.eqb f "delete" then
        (Ok VNone, mkService (next_job st) (delete j (jobs st)))
      else if String.eqb f "len" then (Ok (VInt 14424), st)
      else (Ok (VObj j), st)
  | None =>
      if String.eqb f "len" then (Ok (VInt 14424), st)
      else (Ok (VObj j), st)
  end.

Definition tap_service : world service_state := fun st f args kwargs =>
  match args with
  | [_; q] =>
      if String.eqb f "submit_job" then
        let j := next_job st in
        (Ok (VObj j),
         mkService (N.succ j) (<[j := mkJob q false]> (jobs st)))
      else (Ok (VObj 0), st)
  | [a] =>
      match a with
      | VObj j => job_call f j st
      | VStr url =>
          if String.eqb f "retrieve_query" then
            match find_job url st with
            | Some j => (Ok (VObj j), st)
            | None => (Raised (ExtError "DALServiceError"), st)
            end
          else (Ok (VObj 0), st)
      | _ => (Ok (VObj 0), st)
      end
  | _ => (Ok (VObj 0), st)
  end.

(** ** The Firefly display

    Model of the display server of the Firefly notebook, after the
    notebook's description: [mtv] makes an image "appear in the Firefly
    JupyterLab tab"; [setMaskTransparency] and [scale] adjust how it is
    shown; "Display.dot always adds new markers to the display.  To clear
    the display of all markers, use the erase method".  The display keeps
    the image shown, the settings made and the markers, each marker with
    the positional and keyword arguments of its [dot]. *)
Record display_state := mkDisplay {
  shown : option val;
  settings : list (string * list val);
  markers : list (list val * list (string * val))
}.

Definition firefly_display : world display_state := fun st f args kwargs =>
  match args with
  | _display :: rest =>
      if String.eqb f "mtv" then
        match rest with
        | [image] =>
            (Ok VNone, mkDisplay (Some image) (settings st) (markers st))
        | _ => (Raised TypeError, st)
        end
      else if String.eqb f "setMaskTransparency" || String.eqb f "scale" then
        (Ok VNone, mkDisplay (shown st) (settings st ++ [(f, rest)]) (markers st))
      else if String.eqb f "dot" then
        (Ok VNone,
         mkDisplay (shown st) (settings st) (markers st ++ [(rest, kwargs)]))
      else if String.eqb f "erase" then
        (Ok VNone, mkDisplay (shown st) (settings st) [])
      else (Ok (VObj 0), st)
  | [] => (Ok (VObj 0), st)
  end.

(** Section "Display the calexp" and those after it:
<<
    afw_display.mtv(calexp)
    afw_display.setMaskTransparency(80)
    afw_display.dot('o', record.getX(), record.getY(), size=20, ctype='orange')
    afw_display.erase()
>>
    [dot] is the statement inside the loop over the records. *)
Definition cell_mtv (afw_display image : val) : prog unit :=
  method afw_display "mtv" [image] [] ;;; Ret tt.

Definition cell_set_transparency (afw_display : val) : prog unit :=
  method afw_display "setMaskTransparency" [VInt 80] [] ;;; Ret tt.

Definition stmt_dot (afw_display record ctype : val) : prog unit :=
  x <- method record "getX" [] [] ;;
  y <- method record "getY" [] [] ;;
  method afw_display "dot" [VStr "o"; x; y]
    [("size", VInt 20); ("ctype", ctype)] ;;;
  Ret tt.

Definition cell_erase (afw_display : val) : prog unit :=
  method afw_display "erase" [] [] ;;; Ret tt.

(** ** Services that change only when told to

    The calls through which the notebooks can change what a remote
    service holds, and the contract of a world whose state changes on no
    other call.  [run] is the job's; a pipeline task's [run] works on
    local data. *)
Definition modifying_calls : list string :=
  ["submit_job"; "run"; "delete";
   "mtv"; "setMaskTransparency"; "scale"; "dot"; "erase"].

Definition is_modifying (f : string) : bool :=
  existsb (String.eqb f) modifying_calls.

Definition changes_only_on_modifying {S} (w : world S) : Prop :=
  forall s f args kwargs,
    is_modifying f = false -> snd (w s f args kwargs) = s.

(** A program none of whose calls is one of the modifying calls. *)
Inductive retrieves_only {A} : prog A -> Prop :=
| ro_ret a : retrieves_only (Ret a)
| ro_raise e : retrieves_only (Raise e)
| ro_call f args kwargs k :
    is_modifying f = false -> (forall v, retrieves_only (k v)) ->
    retrieves_only (Call f args kwargs k).

(** A service whose base URL is not the one the notebook expects: every
    call is answered, none changes anything. *)
Definition other_service : world unit := fun st f args kwargs =>
  if String.eqb f ".baseurl" then (Ok (VStr "https://example.org/tap"), st)
  else (Ok (VObj 0), st).

(** A service whose searches fail. *)
Definition failing_service : world unit := fun st f args kwargs =>
  if String.eqb f "search" then (Raised (ExtError "DALServiceError"), st)
  else (Ok (VObj 0), st).

End Tap.

(* ===================================================================== *)
(** * The notebooks, cell by cell                                         *)
(* ===================================================================== *)

Module Notebooks.

(** Operations on a remote service. *)
Inductive remote_op : Type :=
| RegistryQuery     (* registry.queryCollections, getCollectionType,
                       queryDatasetTypes, queryDatasets,
                       queryDimensionRecords, and listing a query *)
| ButlerGetURI      (* butler.getURI(ref) *)
| ButlerGet         (* butler.get(datasetType, dataId) *)
| TapSearch         (* service.search(query) *)
| JobSubmit         (* service.submit_job(query), with job.url, job.phase *)
| JobRun            (* job.run() *)
| JobWait           (* job.wait(phases=...), with job.phase *)
| JobRaiseIfError   (* job.raise_if_error() *)
| JobFetchResult    (* job.fetch_result() *)
| JobRetrieve       (* retrieve_query(job.url) *)
| JobDelete         (* job.delete() *)
| DisplayMtv        (* afw_display.mtv(image), Firefly backend *)
| DisplaySet        (* afw_display.setMaskTransparency, afw_display.scale *)
| DisplayQuery      (* afw_display.getMaskPlaneColor(maskName) *)
| DisplayDot        (* afw_display.dot(...) *)
| DisplayErase.     (* afw_display.erase() *)

Global Instance remote_op_eq_dec : EqDecision remote_op.
Proof. solve_decision. Defined.

(** The functions and methods an operation calls in the source. *)
Definition op_calls (op : remote_op) : list string :=
  match op with
  | RegistryQuery =>
      ["queryCollections"; "getCollectionType"; "queryDatasetTypes";
       "queryDatasets"; "queryDimensionRecords"; "list"]
  | ButlerGetURI => ["getURI"]
  | ButlerGet => ["get"]
  | TapSearch => ["search"]
  | JobSubmit => ["submit_job"; ".url"; ".phase"]
  | JobRun => ["run"]
  | JobWait => ["wait"; ".phase"]
  | JobRaiseIfError => ["raise_if_error"]
  | JobFetchResult => ["fetch_result"]
  | JobRetrieve => [".url"; "retrieve_query"]
  | JobDelete => ["delete"]
  | DisplayMtv => ["mtv"]
  | DisplaySet => ["setMaskTransparency"; "scale"]
  | DisplayQuery => ["getMaskPlaneColor"]
  | DisplayDot => ["dot"]
  | DisplayErase => ["erase"]
  end.

(** The operations that can change what the service holds: those that
    make one of the modifying calls (see [Tap.modifying_calls]). *)
Definition modifies_service (op : remote_op) : bool :=
  existsb Tap.is_modifying (op_calls op).

(** What a statement of a cell does, with the names of the variables
    involved.
    - [Obtain h via]: [h] becomes a client handle, from the handles [via]
      ([butler = Butler(repo)], [registry = butler.registry],
      [service = get_tap_service()]);
    - [Request op h dataId uses out]: operation [op] through handle [h],
      with the dictionary named [dataId] as data id when there is one,
      using the values [uses] and binding [out];
    - [DictLit name keys uses]: [name = {key: ..., ...}];
    - [Bind out uses]: a value computed locally or by a library from
      earlier values;
    - [RunTask task on out]: [task.run(...)] of a pipeline task;
    - [Render what]: a call that draws the values [what] in the notebook
      (afw display with the matplotlib backend, matplotlib, bokeh,
      holoviews);
    - [ReadFile path out], [WriteFile path uses]: a local file;
    - [Update target uses]: an object changed in place;
    - [Check what]: an [assert];
    - [Print what]: a [print] of a name that an earlier statement binds
      under a condition (the other [print] calls show names just bound
      and are not recorded). *)
Inductive step : Type :=
| Obtain (h : string) (via : list string)
| Request (op : remote_op) (h : string) (dataId : option string)
          (uses : list string) (out : list string)
| DictLit (name : string) (keys : list string) (uses : list string)
| Bind (out : string) (uses : list string)
| RunTask (task : string) (on : list string) (out : list string)
| Render (what : list string)
| ReadFile (path : string) (out : string)
| WriteFile (path : string) (uses : list string)
| Update (target : string) (uses : list string)
| Check (what : list string)
| Print (what : list string).

(** A statement at the top level of a cell, or statements that run a
    number of times that depends on the data: the body of a [for] loop,
    or, for a loop left by [break] under an [if], the statements under
    that [if]. *)
Inductive stmt : Type :=
| Do (st : step)
| For (body : list step).

Definition notebook : Type := list stmt.

(** The statements as written, loop bodies included once. *)
Definition steps_of (nb : notebook) : list step :=
  concat (map (fun c => match c with Do st => [st] | For body => body end) nb).

(** The statements as executed when the loops, in order, run [counts]
    times (a loop beyond the end of [counts] runs zero times). *)
Fixpoint unroll (counts : list nat) (nb : notebook) : list step :=
  match nb with
  | [] => []
  | Do st :: nb' => st :: unroll counts nb'
  | For body :: nb' =>
      match counts with
      | n :: counts' => concat (replicate n body) ++ unroll counts' nb'
      | [] => unroll [] nb'
      end
  end.

(** ** Names a step needs and names it provides *)

Definition handle_uses (st : step) : list string :=
  match st with
  | Obtain _ via => via
  | Request _ h _ _ _ => [h]
  | _ => []
  end.

Definition handle_defs (st : step) : list string :=
  match st with
  | Obtain h _ => [h]
  | Request JobSubmit _ _ _ out | Request JobRetrieve _ _ _ out => out
  | _ => []
  end.

Definition value_uses (st : step) : list string :=
  match st with
  | Request _ _ (Some d) uses _ => d :: uses
  | Request _ _ None uses _ => uses
  | DictLit _ _ uses | Bind _ uses | WriteFile _ uses => uses
  | RunTask _ on _ => on
  | Render what | Check what | Print what => what
  | Update target uses => target :: uses
  | Obtain _ _ | ReadFile _ _ => []
  end.

Definition value_defs (st : step) : list string :=
  match st with
  | Obtain h _ => [h]
  | Request _ _ _ _ out | RunTask _ _ out => out
  | DictLit name _ _ => [name]
  | Bind out _ | ReadFile _ out => [out]
  | _ => []
  end.

(** ** Running the steps, refusing a step whose names are not there yet *)

Record env := mkEnv { handles : gset string; values : gset string }.

Definition empty_env : env := mkEnv ∅ ∅.

Definition ready (e : env) (st : step) : bool :=
  forallb (fun h => bool_decide (h ∈ handles e)) (handle_uses st) &&
  forallb (fun x => bool_decide (x ∈ values e)) (value_uses st).

Definition after (e : env) (st : step) : env :=
  mkEnv (list_to_set (handle_defs st) ∪ handles e)
        (list_to_set (value_defs st) ∪ values e).

Fixpoint exec (l : list step) (e : env) : option env :=
  match l with
  | [] => Some e
  | st :: l' => if ready e st then exec l' (after e st) else None
  end.

(** One environment provides at least what another does. *)
Definition env_le (e1 e2 : env) : Prop :=
  handles e1 ⊆ handles e2 /\ values e1 ⊆ values e2.

(** A notebook checked once: each loop body must run in the environment
    the loop starts in, and what follows the loop must not rely on names
    bound inside it. *)
Fixpoint check (nb : notebook) (e : env) : option env :=
  match nb with
  | [] => Some e
  | Do st :: nb' => if ready e st then check nb' (after e st) else None
  | For body :: nb' =>
      match exec body e with
      | Some _ => check nb' e
      | None => None
      end
  end.

(** Every loop of the notebook is given a count, and runs at least
    once. *)
Fixpoint loops_entered (counts : list nat) (nb : notebook) : bool :=
  match nb with
  | [] => true
  | Do _ :: nb' => loops_entered counts nb'
  | For _ :: nb' =>
      match counts with
      | n :: counts' => Nat.ltb 0 n && loops_entered counts' nb'
      | [] => false
      end
  end.

(** A notebook checked once with every loop entered: what follows a loop
    may rely on the names bound inside it. *)
Fixpoint check_entered (nb : notebook) (e : env) : option env :=
  match nb with
  | [] => Some e
  | Do st :: nb' => if ready e st then check_entered nb' (after e st) else None
  | For body :: nb' =>
      match exec body e with
      | Some e1 => check_entered nb' e1
      | None => None
      end
  end.

(** The handles and values provided by the first [i] steps. *)
Definition handles_before (l : list step) (i : nat) : gset string :=
  list_to_set (concat (map handle_defs (take i l))).
Definition values_before (l : list step) (i : nat) : gset string :=
  list_to_set (concat (map value_defs (take i l))).

(** No step comes before the steps it depends on. *)
Definition in_order (l : list step) : Prop :=
  forall i st, l !! i = Some st ->
    (forall h, In h (handle_uses st) -> h ∈ handles_before l i) /\
    (forall x, In x (value_uses st) -> x ∈ values_before l i).

(** ** Inventories *)

Definition remote_ops (nb : notebook) : list remote_op :=
  omap (fun st => match st with Request op _ _ _ _ => Some op | _ => None end)
       (steps_of nb).

Definition files_read (nb : notebook) : list string :=
  omap (fun st => match st with ReadFile p _ => Some p | _ => None end)
       (steps_of nb).

Definition files_written (nb : notebook) : list string :=
  omap (fun st => match st with WriteFile p _ => Some p | _ => None end)
       (steps_of nb).

(** What the [assert] statements of a notebook check. *)
Definition checks (nb : notebook) : list (list string) :=
  omap (fun st => match st with Check what => Some what | _ => None end)
       (steps_of nb).

(** The operations on the asynchronous job of a TAP service. *)
Definition is_job_op (op : remote_op) : bool :=
  match op with
  | JobSubmit | JobRun | JobWait | JobRaiseIfError | JobFetchResult
  | JobRetrieve | JobDelete => true
  | _ => false
  end.

(** ** The four kinds of step

    (a) a client handle is obtained, (b) data is requested, (c) a
    pipeline task runs, (d) a result is rendered, in the notebook or on a
    display server.  The other steps belong to no kind. *)
Definition phase (st : step) : option nat :=
  match st with
  | Obtain _ _ => Some 0%nat
  | Request (DisplayMtv | DisplaySet | DisplayQuery | DisplayDot
            | DisplayErase) _ _ _ _ => Some 3%nat
  | Request _ _ _ _ _ => Some 1%nat
  | RunTask _ _ _ => Some 2%nat
  | Render _ => Some 3%nat
  | _ => None
  end.

Fixpoint nondecreasing (l : list nat) : bool :=
  match l with
  | a :: (b :: _) as l' => Nat.leb a b && nondecreasing l'
  | _ => true
  end.

(** The steps come kind after kind: all (a), then all (b), then (c),
    then (d). *)
Definition phases_in_order (l : list step) : Prop :=
  nondecreasing (omap phase l) = true.

(** The notebook has a step of that kind. *)
Definition has_phase (k : nat) (nb : notebook) : bool :=
  existsb (fun st => bool_decide (phase st = Some k)) (steps_of nb).

(** The names passed to [butler.get] as data id. *)
Definition dataId_names (nb : notebook) : list string :=
  omap (fun st => match st with
                  | Request ButlerGet _ (Some d) _ _ => Some d
                  | _ => None
                  end) (steps_of nb).

(** The keys of the dictionary literals bound to such a name. *)
Definition dataId_literals (nb : notebook) : list (list string) :=
  omap (fun st => match st with
                  | DictLit name keys _ =>
                      if bool_decide (name ∈ dataId_names nb)
                      then Some keys else None
                  | _ => None
                  end) (steps_of nb).

Definition dataId_keys : list string :=
  ["visit"; "detector"; "band"; "tract"; "patch"].

(** ** [cutout_coadd] at a call site

    [out = cutout_coadd(butler, ra, dec, ...)] with [skymap] left at None:
    the statements of the function body that touch the Butler or bind a
    value derived from it. *)
Definition cutout_coadd_call (butler : string) (uses : list string)
    (out : string) : notebook :=
  [ Do (Bind "radec" uses);
    Do (Request ButlerGet butler None [] ["skymap"]);
    Do (Bind "tractInfo" ["skymap"; "radec"]);
    Do (Bind "patchInfo" ["tractInfo"; "radec"]);
    Do (Bind "xy" ["tractInfo"; "radec"]);
    Do (Bind "bbox" ["xy"]);
    Do (Bind "patch" ["tractInfo"; "patchInfo"]);
    Do (DictLit "coaddId" ["tract"; "patch"; "band"] ["tractInfo"; "patch"]);
    Do (DictLit "parameters" ["bbox"] ["bbox"]);
    Do (Request ButlerGet butler (Some "coaddId") ["parameters"] [out]) ].

(** ** 04_Intro_to_Butler: Introduction to the LSST data Butler *)
Definition butler_intro : notebook :=
  [ (* 2. butler = dafButler.Butler(repo) *)
    Do (Obtain "butler" []);
    (* 2.1 registry = butler.registry; queryCollections in two loops *)
    Do (Obtain "registry" ["butler"]);
    Do (Request RegistryQuery "registry" None [] []);
    Do (Request RegistryQuery "registry" None [] []);
    For [Request RegistryQuery "registry" None [] []];
    Do (Obtain "butler" []);
    Do (Obtain "registry" ["butler"]);
    (* 2.2 queryDatasetTypes *)
    Do (Request RegistryQuery "registry" None [] []);
    (* 2.3 queryDatasets; butler.getURI(ref) in a loop *)
    Do (Request RegistryQuery "registry" None [] ["datasetRefs"]);
    For [Request ButlerGetURI "butler" None ["datasetRefs"] []];
    Do (Request RegistryQuery "registry" None [] ["datasetRefs"]);
    (* 2.4 queryDimensionRecords *)
    For [Request RegistryQuery "registry" None [] []];
    Do (Request RegistryQuery "registry" None [] ["record"]);
    Do (Request RegistryQuery "registry" None [] []);
    Do (Bind "timespan" ["record"]);
    Do (Request RegistryQuery "registry" None ["timespan"] ["datasetRefs"]);
    (* 2.5 htm_id from lsst.sphgeom; two more queries *)
    Do (Bind "htm_id" []);
    Do (Request RegistryQuery "registry" None ["htm_id"; "timespan"]
          ["datasetRefs"]);
    Do (Request RegistryQuery "registry" None ["htm_id"] []);
    (* 3.1 dataId = {'visit': '703697', 'detector': 80, 'band': 'g'} *)
    Do (DictLit "dataId" ["visit"; "detector"; "band"] []);
    Do (Request ButlerGet "butler" (Some "dataId") [] ["calexp"]);
    Do (Render ["calexp"]);
    Do (Request ButlerGet "butler" (Some "dataId") [] ["src"]);
    Do (Bind "src" ["src"]);
    Do (Render ["calexp"]);
    For [Render ["src"]; Render ["src"]] ]
  ++ (* 3.2 cutout_image = cutout_coadd(butler, ra, dec, ...) *)
  cutout_coadd_call "butler" [] "cutout_image" ++
  [ Do (Render ["cutout_image"]);
    (* 3.3 butler.get('deepCoadd_forced_src_schema') *)
    Do (Request ButlerGet "butler" None [] ["schema_coadd_src"]);
    Do (Bind "schema_dict" ["schema_coadd_src"]);
    (* 3.4 skymap, tract, patch, coaddId, coadd_src *)
    Do (Bind "radec" []);
    Do (Request ButlerGet "butler" None [] ["skymap"]);
    Do (Bind "tractInfo" ["skymap"; "radec"]);
    Do (Bind "tract" ["tractInfo"]);
    Do (Bind "patchInfo" ["tractInfo"; "radec"]);
    Do (Bind "patch" ["tractInfo"; "patchInfo"]);
    Do (DictLit "coaddId" ["tract"; "patch"; "band"] ["tract"; "patch"]);
    Do (Request ButlerGet "butler" (Some "coaddId") [] ["coadd_src"]);
    Do (Bind "coadd_src" ["coadd_src"]);
    Do (Bind "data" ["coadd_src"]);
    Do (Render ["data"]) ].

(** ** 04_Intro_to_Butler, second document: Intermediate TAP queries *)
Definition tap_intermediate : notebook :=
  [ (* 1.2 service = get_tap_service(); two asserts *)
    Do (Obtain "service" []);
    Do (Check ["service"]);
    Do (Check ["service"]);
    (* 1.3 schemas and tables *)
    Do (Request TapSearch "service" None [] ["results"]);
    Do (Request TapSearch "service" None [] ["results"]);
    (* schema_names = results['schema_name']
       for name in schema_names:
           if re.search('dp01', name):
               dp01_schema_name = name
               break
       the binding runs once when a name matches, and not at all
       otherwise *)
    Do (Bind "schema_names" ["results"]);
    For [Bind "dp01_schema_name" ["schema_names"]];
    (* print("DP0.1 schema is " + dp01_schema_name) *)
    Do (Print ["dp01_schema_name"]);
    (* query = "SELECT ... '" + dp01_schema_name + "' ..." *)
    Do (Bind "query" ["dp01_schema_name"]);
    Do (Request TapSearch "service" None ["query"] ["results"]);
    (* 2.1 TOP and maxrec *)
    Do (Bind "query" []);
    Do (Request TapSearch "service" None ["query"] ["results"]);
    Do (Check ["results"]);
    Do (Bind "query" []);
    Do (Request TapSearch "service" None ["query"] ["results1"]);
    Do (Check ["results1"]);
    Do (Check ["results"; "results1"]);
    (* 2.2 cone search *)
    Do (Bind "query" []);
    Do (Request TapSearch "service" None ["query"] ["results"]);
    Do (Check ["results"]);
    (* 2.3 join with the truth table *)
    Do (Bind "query" []);
    Do (Request TapSearch "service" None ["query"] ["results"]);
    Do (Check ["results"]);
    (* 2.4 histogram of truth types *)
    Do (Bind "query_histogram" []);
    Do (Request TapSearch "service" None ["query_histogram"]
          ["object_type_histogram"]);
    Do (Update "object_type_histogram" []);
    (* 3.1 ColumnDataSource and colour-magnitude diagram *)
    Do (Bind "data" ["results"]);
    Do (Bind "source" ["data"]);
    Do (Update "source" ["results"]);
    Do (Update "source" ["results"]);
    Do (Render ["source"]);
    Do (Render ["source"]);
    (* 3.2 linked plots *)
    Do (Update "source" ["results"]);
    Do (Update "source" ["results"]);
    Do (Bind "stars" ["source"]);
    Do (Render ["source"; "stars"]);
    Do (Render ["source"; "stars"]);
    Do (Render ["source"; "stars"]);
    Do (Render ["source"; "stars"]);
    (* 3.3 flux ratio *)
    Do (Update "source" ["results"]);
    Do (Update "source" ["results"]);
    Do (Render ["source"]);
    Do (Render ["source"]);
    (* 4.1 asynchronous job *)
    Do (Request JobSubmit "service" None ["query"] ["job"]);
    Do (Request JobRun "job" None [] []);
    Do (Request JobWait "job" None [] []);
    Do (Request JobRaiseIfError "job" None [] []);
    Do (Request JobFetchResult "job" None [] ["async_results"]);
    Do (Check ["async_results"]);
    Do (Check ["results"; "async_results"]);
    (* 4.2 retrieve_query(job.url) *)
    Do (Request JobRetrieve "job" None [] ["retrieved_job"]);
    Do (Request JobFetchResult "retrieved_job" None [] ["retrieved_results"]);
    Do (Check ["retrieved_results"]);
    Do (Check ["retrieved_results"; "async_results"]);
    (* 4.3 job.delete() *)
    Do (Request JobDelete "job" None [] []) ].

(** ** 09_Single_Star_Lightcurve_with_Butler *)
Definition light_curve : notebook :=
  [ (* 1. butler, registry *)
    Do (Obtain "butler" []);
    Do (Obtain "registry" ["butler"]);
    (* 2. htm_id; datasetRefs = registry.queryDatasets(...); list(...) *)
    Do (Bind "htm_id" []);
    Do (Request RegistryQuery "registry" None ["htm_id"] ["datasetRefs"]);
    Do (Request RegistryQuery "registry" None ["datasetRefs"] ["refs"]);
    (* 3.2 tab_timeseries = fits.getdata('data/timeseries_rband.fits') *)
    Do (ReadFile "data/timeseries_rband.fits" "tab_timeseries");
    (* 3.3 plot of mag against mjd *)
    Do (Render ["tab_timeseries"]);
    (* 4. periodogram with astropy's LombScargle, two plots *)
    Do (Bind "mjd_days" ["tab_timeseries"]);
    Do (Bind "mags" ["tab_timeseries"]);
    Do (Bind "frequency" ["mjd_days"; "mags"]);
    Do (Bind "power" ["mjd_days"; "mags"]);
    Do (Render ["frequency"; "power"]);
    Do (Render ["frequency"; "power"]);
    Do (Bind "select_peak" ["power"; "frequency"]);
    Do (Bind "best_period" ["frequency"; "select_peak"]);
    (* 5. phased light curve *)
    Do (Bind "mjd_norm" ["mjd_days"; "best_period"]);
    Do (Bind "phase" ["mjd_norm"]);
    Do (Render ["phase"; "mags"]) ].

(** ** Introduction to Source Detection *)
Definition source_detection : notebook :=
  [ (* 1.1 dataId = {'visit': 512055, 'detector': 75}; butler; calexp *)
    Do (DictLit "dataId" ["visit"; "detector"] []);
    Do (Obtain "butler" []);
    Do (Request ButlerGet "butler" (Some "dataId") [] ["calexp"]);
    (* calexp.mask.removeAndClearMaskPlane('DETECTED'); display *)
    Do (Update "calexp" []);
    Do (Render ["calexp"]);
    (* bkgd = butler.get('calexpBackground', **dataId); display *)
    Do (Request ButlerGet "butler" (Some "dataId") [] ["bkgd"]);
    Do (Render ["bkgd"]);
    (* calexp.maskedImage += bkgd.getImage(); display *)
    Do (Update "calexp" ["bkgd"]);
    Do (Render ["calexp"]);
    (* 1.2 cutout = calexp.Factory(calexp, bbox, ...); display *)
    Do (Bind "cutout" ["calexp"]);
    Do (Render ["cutout"]);
    (* 2.3 result = charImageTask.run(calexp); psf = calexp.getPsf() *)
    Do (RunTask "charImageTask" ["calexp"] ["result"]);
    Do (Bind "psf" ["calexp"]);
    (* result = sourceDetectionTask.run(tab, calexp) *)
    Do (RunTask "sourceDetectionTask" ["calexp"] ["result"]);
    Do (Bind "sources" ["result"]);
    (* sourceDeblendTask.run(calexp, sources)
       sourceMeasurementTask.run(measCat=sources, exposure=calexp) *)
    Do (RunTask "sourceDeblendTask" ["calexp"; "sources"] []);
    Do (RunTask "sourceMeasurementTask" ["sources"; "calexp"] []);
    Do (Bind "sources" ["sources"]);
    (* 2.4 cutout with the sources overplotted *)
    Do (Bind "image" ["cutout"]);
    Do (Render ["image"]);
    For [Render ["sources"]; Render ["sources"]];
    (* 3. footprints *)
    Do (Bind "fpset" ["result"]);
    Do (Bind "fps" ["fpset"]);
    Do (Update "fpset" ["calexp"]);
    Do (Bind "hfps" ["fpset"]);
    Do (Render ["fps"; "hfps"]);
    Do (Render ["fps"; "hfps"]) ].

(** ** Interactive Image Visualization *)
Definition holoviz : notebook :=
  [ (* 1.2 butler; calexpId, calexp, assert; calexpSrc *)
    Do (Obtain "butler" []);
    Do (DictLit "calexpId" ["visit"; "detector"; "band"] []);
    Do (Request ButlerGet "butler" (Some "calexpId") [] ["calexp"]);
    Do (Check ["calexp"]);
    Do (Request ButlerGet "butler" (Some "calexpId") [] ["calexpSrc"]);
    (* coaddId, coadd, assert; coaddSrc *)
    Do (DictLit "coaddId" ["tract"; "patch"; "band"] []);
    Do (Request ButlerGet "butler" (Some "coaddId") [] ["coadd"]);
    Do (Check ["coadd"]);
    Do (Bind "coaddInfo" ["coadd"]);
    Do (Bind "coaddVisits" ["coaddInfo"]);
    Do (Request ButlerGet "butler" (Some "coaddId") [] ["coaddSrc"]);
    (* 2.1 scaledImage, img = hv.Image(...), rasterize(img) *)
    Do (Bind "scaledImage" ["calexp"]);
    Do (Bind "scaledImage" ["scaledImage"]);
    Do (Bind "bounds_img" ["calexp"]);
    Do (Bind "img" ["scaledImage"; "bounds_img"; "calexpId"]);
    Do (Render ["img"]);
    (* 2.2 detections over the image *)
    Do (Bind "coords" ["calexpSrc"]);
    Do (Bind "detections" ["coords"]);
    Do (Render ["img"; "detections"]);
    (* 2.3 streams: box selection and tap *)
    Do (Bind "box" ["img"]);
    Do (Bind "dynamicMap" ["box"]);
    Do (Render ["img"; "dynamicMap"]);
    Do (Bind "posxy" ["img"; "calexp"]);
    Do (Bind "marker" ["posxy"]);
    Do (Render ["img"; "marker"]) ].

(** ** Comparing Object and Truth Tables *)
Definition object_truth : notebook :=
  [ (* 1. service = get_tap_service() *)
    Do (Obtain "service" []);
    (* 2. schema queries *)
    Do (Request TapSearch "service" None [] ["results"]);
    Do (Bind "results_tab" ["results"]);
    Do (Request TapSearch "service" None [] ["results"]);
    Do (Request TapSearch "service" None [] ["results"]);
    Do (Bind "results_tab" ["results"]);
    (* 3. truth_plus_meas = service.search(query) *)
    Do (Bind "query" []);
    Do (Request TapSearch "service" None ["query"] ["truth_plus_meas"]);
    (* 4. star, gx; colour plots *)
    Do (Bind "star" ["truth_plus_meas"]);
    Do (Bind "gx" ["truth_plus_meas"]);
    Do (Render ["truth_plus_meas"; "gx"]);
    Do (Render ["truth_plus_meas"; "star"]);
    Do (Render ["truth_plus_meas"; "gx"]);
    Do (Render ["truth_plus_meas"; "star"]);
    Do (Render ["truth_plus_meas"; "gx"]);
    Do (Render ["truth_plus_meas"; "star"]) ].

(** ** Displaying images using Firefly

    The display is LSST's Firefly viewer ("since we are working remotely
    on JupyterLab we would prefer to use the web-based Firefly display"):
    what the notebook shows, it sends to the display server. *)
Definition firefly : notebook :=
  [ (* 2. dataId, butler, calexp *)
    Do (DictLit "dataId" ["visit"; "detector"; "band"] []);
    Do (Obtain "butler" []);
    Do (Request ButlerGet "butler" (Some "dataId") [] ["calexp"]);
    (* afwDisplay.setDefaultBackend('firefly')
       afw_display = afwDisplay.Display(frame=1)
       afw_display.getClient().show_lab_tab() *)
    Do (Obtain "afw_display" []);
    (* 3. afw_display.mtv(calexp) *)
    Do (Request DisplayMtv "afw_display" None ["calexp"] []);
    (* setMaskTransparency(80); scale("asinh", -5, 20);
       scale("asinh", "zscale") *)
    Do (Request DisplaySet "afw_display" None [] []);
    Do (Request DisplaySet "afw_display" None [] []);
    Do (Request DisplaySet "afw_display" None [] []);
    (* mask = calexp.getMask(); getMaskPlaneColor in a loop *)
    Do (Bind "mask" ["calexp"]);
    For [Request DisplayQuery "afw_display" None ["mask"] []];
    (* 4. src = butler.get('src', **dataId); circles in a loop; erase *)
    Do (Request ButlerGet "butler" (Some "dataId") [] ["src"]);
    (* the loop is inside [with afw_display.Buffering()], which collects
       the updates on the client and sends them together *)
    For [Request DisplayDot "afw_display" None ["src"] []];
    Do (Request DisplayErase "afw_display" None [] []);
    (* 5. coadd: dataId_coadd, coadd_calexp, forced_src, refTable *)
    Do (DictLit "dataId_coadd" ["tract"; "patch"; "band"] []);
    Do (Request ButlerGet "butler" (Some "dataId_coadd") [] ["coadd_calexp"]);
    Do (Request ButlerGet "butler" (Some "dataId_coadd") [] ["forced_src"]);
    Do (Request ButlerGet "butler" (Some "dataId_coadd") [] ["refTable"]);
    Do (Request DisplayMtv "afw_display" None ["coadd_calexp"] []);
    Do (Bind "xy0" ["coadd_calexp"]);
    Do (Bind "boxSelect" ["refTable"; "xy0"]);
    Do (Bind "isPrimary" ["refTable"]);
    Do (Bind "isStellar" ["refTable"]);
    For [Request DisplayDot "afw_display" None
           ["forced_src"; "boxSelect"; "isPrimary"; "isStellar"] []];
    For [Request DisplayDot "afw_display" None
           ["forced_src"; "boxSelect"; "isPrimary"; "isStellar"] []] ].

(** ** Introduction to Jupyter Notebooks for Data Preview 0 *)
Definition first_notebook : notebook :=
  [ (* 2.1 service = get_tap_service() *)
    Do (Obtain "service" []);
    (* 2.3 two searches; data = results.to_table().to_pandas(); plot *)
    Do (Request TapSearch "service" None [] ["results"]);
    Do (Bind "results_tab" ["results"]);
    Do (Request TapSearch "service" None [] ["results"]);
    Do (Bind "data" ["results"]);
    Do (Render ["data"]);
    (* 3.1 butler *)
    Do (Obtain "butler" []);
    (* 3.2 skymap = butler.get('skyMap'); my_tract, my_patch *)
    Do (Bind "my_spherePoint" []);
    Do (Request ButlerGet "butler" None [] ["skymap"]);
    Do (Bind "my_tract" ["skymap"; "my_spherePoint"]);
    Do (Bind "my_patch" ["my_tract"; "my_spherePoint"]);
    Do (Bind "my_patch_id" ["my_tract"; "my_patch"]);
    (* 3.3 dataId = {'band': 'i', 'tract': 4431, 'patch':17} *)
    Do (DictLit "dataId" ["band"; "tract"; "patch"] []);
    Do (Request ButlerGet "butler" (Some "dataId") [] ["my_deepCoadd"]);
    (* 3.4 afw_display.mtv(my_deepCoadd.image) *)
    Do (Render ["my_deepCoadd"]) ].

(** ** Displaying images using the afw library *)
Definition afw_display : notebook :=
  [ (* 2.1 dataId, butler, calexp *)
    Do (DictLit "dataId" ["visit"; "detector"; "band"] []);
    Do (Obtain "butler" []);
    Do (Request ButlerGet "butler" (Some "dataId") [] ["calexp"]);
    (* 2.2 display.mtv(calexp.image); plt.imshow(calexp.image.array);
       image and mask side by side; masked image *)
    Do (Render ["calexp"]);
    Do (Render ["calexp"]);
    Do (Render ["calexp"]);
    Do (Render ["calexp"]);
    Do (Render ["calexp"]);
    (* 2.3 mask plane colours: afw_display.mtv(calexp) *)
    Do (Render ["calexp"]);
    (* 3. coadd: dataId, coadd_calexp, display, wcs, radec *)
    Do (DictLit "dataId" ["tract"; "patch"; "band"] []);
    Do (Request ButlerGet "butler" (Some "dataId") [] ["coadd_calexp"]);
    Do (Render ["coadd_calexp"]);
    Do (Bind "wcs" ["coadd_calexp"]);
    Do (Bind "radec" ["wcs"]) ]
  ++ cutout_coadd_call "butler" ["radec"] "cutout_image" ++
  [ Do (Render ["cutout_image"]) ]
  (* 4. three bands, MultibandExposure, two RGB images *)
  ++ cutout_coadd_call "butler" ["radec"] "cutout_image_g"
  ++ cutout_coadd_call "butler" ["radec"] "cutout_image_r"
  ++ cutout_coadd_call "butler" ["radec"] "cutout_image_i" ++
  [ Do (Bind "coadds" ["cutout_image_g"; "cutout_image_r"; "cutout_image_i"]);
    Do (Bind "rgb_original" ["coadds"]);
    Do (Render ["rgb_original"]);
    Do (Bind "rgb_scaled" ["coadds"]);
    Do (Render ["rgb_scaled"]) ].

Definition all_notebooks : list notebook :=
  [ butler_intro; tap_intermediate; light_curve; source_detection; holoviz;
    object_truth; firefly; first_notebook; afw_display ].

(** ** The file read by the light-curve notebook

    [tab_timeseries = fits.getdata('data/timeseries_rband.fits')], against
    a file system that maps paths to the tables stored there; the call
    raises when there is no such file. *)
Definition cell_read_timeseries : Py.prog Py.val :=
  Py.call "fits.getdata" [Py.VStr "data/timeseries_rband.fits"] [].

Definition file_system : Py.world (gmap string Py.val) :=
  fun fs f args kwargs =>
    match args with
    | [Py.VStr path] =>
        if String.eqb f "fits.getdata" then
          match fs !! path with
          | Some table => (Py.Ok table, fs)
          | None => (Py.Raised (Py.ExtError "FileNotFoundError"), fs)
          end
        else (Py.Ok (Py.VObj 0), fs)
    | _ => (Py.Ok (Py.VObj 0), fs)
    end.

End Notebooks.

(* ===================================================================== *)
(** * Callers of the helper functions, and shapes of call traces          *)
(* ===================================================================== *)

Module Cells.
Import Py Helpers.

(** The cutout cell of the source-detection notebook with its four
    numbers as parameters:
<<
    xmin, ymin = x_target-width//2, y_target-height//2
    bbox = geom.Box2I()
    bbox.include(geom.Point2I(xmin, ymin))
    bbox.include(geom.Point2I(xmin + width, ymin + height))
>>
    and the box of the commented-out alternative. *)
Definition cutout_bbox_at (x_target y_target width height : Z) : Geom.Box2I :=
  let xmin := x_target - width `div` 2 in
  let ymin := y_target - height `div` 2 in
  Geom.bbox_by_include xmin ymin width height.

Definition cutout_bbox_alternative_at (x_target y_target width height : Z)
  : Geom.Box2I :=
  let xmin := x_target - width `div` 2 in
  let ymin := y_target - height `div` 2 in
  Geom.bbox_by_extent xmin ymin width height.

(** Section 4 of the image-display notebook:
<<
    cutout_image_g = cutout_coadd(butler, ra, dec, band='g',
                                  datasetType='deepCoadd', cutoutSideLength=701)
    cutout_image_r = cutout_coadd(butler, ra, dec, band='r',
                                  datasetType='deepCoadd', cutoutSideLength=701)
    cutout_image_i = cutout_coadd(butler, ra, dec, band='i',
                                  datasetType='deepCoadd', cutoutSideLength=701)

    # Multiband exposures need a list of images and filters
    coadds = [cutout_image_g, cutout_image_r, cutout_image_i]
    coadds = MultibandExposure.fromExposures(['g', 'r', 'i'], coadds)
>> *)
Definition cell_rgb_cutouts (butler ra dec : val) : prog val :=
  cutout_image_g <- ImageDisplay.cutout_coadd butler ra dec (VStr "g")
                      (VStr "deepCoadd") skymap_default (VInt 701) ;;
  cutout_image_r <- ImageDisplay.cutout_coadd butler ra dec (VStr "r")
                      (VStr "deepCoadd") skymap_default (VInt 701) ;;
  cutout_image_i <- ImageDisplay.cutout_coadd butler ra dec (VStr "i")
                      (VStr "deepCoadd") skymap_default (VInt 701) ;;
  let coadds := VList [cutout_image_g; cutout_image_r; cutout_image_i] in
  coadds <- call "MultibandExposure.fromExposures"
              [VList [VStr "g"; VStr "r"; VStr "i"]; coadds] [] ;;
  Ret coadds.

(** The calls of a trace to a function or method of a given name. *)
Definition calls_named (name : string) (tr : list call_record)
  : list call_record :=
  List.filter (fun c => String.eqb (callee c) name) tr.

(** The band of the data id of a coadd request
    [butler.get(datasetType, parameters=..., dataId={..., 'band': b})]. *)
Definition dataId_band (c : call_record) : option val :=
  match call_kwargs c with
  | [_; (_, VDict [_; _; (_, b)])] => Some b
  | _ => None
  end.

(** A request with keyword arguments to [get]: the coadd request of
    [cutout_coadd]; and a call to a function of a given name. *)
Definition coadd_request (f : string) (kwargs : list (string * val)) : bool :=
  String.eqb f "get" && match kwargs with [] => false | _ => true end.

Definition named (name : string) (f : string) (kwargs : list (string * val))
  : bool := String.eqb f name.

(** A program that makes no call. *)
Definition quiet {A} (p : prog A) : Prop :=
  match p with
  | Call _ _ _ _ => False
  | _ => True
  end.

(** A program in which a call selected by [P] is never followed by
    another call. *)
Inductive ends_with {A} (P : string -> list (string * val) -> bool)
  : prog A -> Prop :=
| ew_ret a : ends_with P (Ret a)
| ew_raise e : ends_with P (Raise e)
| ew_call f args kwargs k :
    P f kwargs = false -> (forall v, ends_with P (k v)) ->
    ends_with P (Call f args kwargs k)
| ew_last f args kwargs k :
    (forall v, quiet (k v)) -> ends_with P (Call f args kwargs k).

(** A program in which a call selected by [P] is followed by nothing
    but the return: no call, and no exception raised by the program
    itself. *)
Inductive closes_with {A} (P : string -> list (string * val) -> bool)
  : prog A -> Prop :=
| cw_ret a : closes_with P (Ret a)
| cw_raise e : closes_with P (Raise e)
| cw_call f args kwargs k :
    P f kwargs = false -> (forall v, closes_with P (k v)) ->
    closes_with P (Call f args kwargs k)
| cw_last f args kwargs k :
    (forall v, exists a, k v = Ret a) -> closes_with P (Call f args kwargs k).

(** Values whose text is the same in the model and in Python: None, a
    boolean, an integer, a string of ASCII characters. *)
Definition plain_value (v : val) : bool :=
  match v with
  | VNone | VBool _ | VInt _ => true
  | VStr s => ascii_text s
  | _ => false
  end.

(** The text [str] gives for a number, a string, a boolean or None. *)
Definition scalar_text (v : val) : string :=
  match v with
  | VNone => "None"
  | VBool true => "True"
  | VBool false => "False"
  | VInt n => pretty n
  | VFloat lit => lit
  | VStr s => s
  | _ => ""
  end.

(** "key: value " for every item of a data id, in order. *)
Definition items_text (items : list (string * val)) : string :=
  foldr (fun kv rest => fst kv +:+ ": " +:+ scalar_text (snd kv) +:+ " " +:+ rest)
        "" items.

(** A world in which nothing is found: every call is answered with
    None. *)
Definition nothing_found : world unit := fun s _ _ _ => (Ok VNone, s).

(** A world in which every image has three bands. *)
Definition three_bands : world unit := fun s f _ _ =>
  if String.eqb f "len" then (Ok (VInt 3), s) else (Ok (VObj 0), s).

(** A world in which a figure has two axes with one image each. *)
Definition two_axes : world unit := fun s f args _ =>
  if String.eqb f "get_axes" then (Ok (VList [VObj 1; VObj 2]), s)
  else if String.eqb f "get_images" then
    match args with
    | [VObj ax] => (Ok (VList [VObj (10 + ax)]), s)
    | _ => (Ok (VList []), s)
    end
  else (Ok VNone, s).

(** Two frames with the same rows in a different order. *)
Definition frame_shuffled_a : Pandas.DataFrame :=
  Pandas.mkDataFrame ["objectId"; "mag_r"] [(5, [9; 21]); (6, [4; 22]); (7, [6; 23])].
Definition frame_shuffled_b : Pandas.DataFrame :=
  Pandas.mkDataFrame ["objectId"; "mag_r"] [(0, [6; 23]); (1, [9; 21]); (2, [4; 22])].

(** The items of a Python list that a call returned. *)
Definition returned_items (c : call_record) : list val :=
  match response c with
  | Ok (VList l) => l
  | _ => []
  end.

(** Cells of "Introduction to the Butler", sections 2.3 to 2.6:
<<
    for i, ref in enumerate(datasetRefs):
        print(ref)
        if i > 6:
            break
>>
    The loop is given the items the iterable yields and the index of the
    first of them; [limit] is the number [i] is compared with. *)
Fixpoint enumerate_break {A} (limit : Z) (body : A -> prog unit) (i : Z)
    (xs : list A) : prog unit :=
  match xs with
  | [] => Ret tt
  | x :: xs' =>
      body x ;;;
      if limit <? i then Ret tt else enumerate_break limit body (i + 1) xs'
  end.

Definition cell_print_refs (limit : Z) (datasetRefs : list val) : prog unit :=
  enumerate_break limit (fun ref => call "print" [ref] [] ;;; Ret tt)
    0 datasetRefs.

(**
<<
    for i, ref in enumerate(datasetRefs):
        print('File URI: ', butler.getURI(ref))
        if i > 2:
            break
>> *)
Definition cell_file_uris (butler : val) (datasetRefs : list val) : prog unit :=
  enumerate_break 2
    (fun ref =>
       uri <- method butler "getURI" [ref] [] ;;
       call "print" [VStr "File URI: "; uri] [] ;;;
       Ret tt)
    0 datasetRefs.

(** How many items a loop that breaks when [i > limit] visits at most,
    starting at index [i]. *)
Definition visited (limit i : Z) : nat := Z.to_nat (Z.max 1 (limit + 2 - i)).

(** "Intermediate TAP queries", section 1.3:
<<
    schema_names = results['schema_name']
    for name in schema_names:
        if re.search('dp01', name):
            dp01_schema_name = name
            break
>>
    [re.search] returns a match object, which is true, or None.  The
    result is the value bound to [dp01_schema_name] by the loop, if any;
    the [print] that follows in the cell needs it bound. *)
Fixpoint find_schema (schema_names : list val) : prog (option val) :=
  match schema_names with
  | [] => Ret None
  | name :: names' =>
      m <- call "re.search" [VStr "dp01"; name] [] ;;
      if negb (is_none m) then Ret (Some name) else find_schema names'
  end.

(** A world whose [re.search] finds a match in one schema name only. *)
Definition one_schema_matches : world unit := fun s f args _ =>
  match args with
  | [_; VStr name] =>
      if String.eqb f "re.search" && String.eqb name "dp01_dc2_catalogs"
      then (Ok (VObj 1), s) else (Ok VNone, s)
  | _ => (Ok VNone, s)
  end.

(** "Introduction to the Butler", section 2.3:
<<
    datasetRefs = registry.queryDatasets(datasetType='calexp', collections=collection)
>> *)
Definition cell_query_datasets (registry collection : val) : prog val :=
  method registry "queryDatasets" []
    [("datasetType", VStr "calexp"); ("collections", collection)].

(** The code of the notebooks around their data requests: a registry
    query, the loop over [butler.getURI], the two [cutout_coadd], the
    retrievals of the holoviz notebook, and the cells of the TAP
    notebook from [get_tap_service] to the retrieval of the job's
    results, those that submit, run and delete the job left out. *)
Definition data_request_cells
    (registry collection butler : val) (datasetRefs : list val)
    (ra dec band datasetType skymap cutoutSideLength
     service query results results1 job async_results : val)
  : list (prog unit) :=
  [ cell_query_datasets registry collection ;;; Ret tt;
    cell_file_uris butler datasetRefs;
    ButlerIntro.cutout_coadd butler ra dec band datasetType skymap
      cutoutSideLength ;;; Ret tt;
    ImageDisplay.cutout_coadd butler ra dec band datasetType skymap
      cutoutSideLength ;;; Ret tt;
    HoloViz.cell_get_calexp butler ;;; Ret tt;
    HoloViz.cell_get_coadd butler ;;; Ret tt;
    Tap.cell_get_service ;;; Ret tt;
    Tap.cell_search_top service query ;;; Ret tt;
    Tap.cell_search_maxrec service query ;;; Ret tt;
    Tap.cell_compare_frames results results1;
    Tap.cell_search_count service query 15670 ;;; Ret tt;
    Tap.cell_search_count service query 14424 ;;; Ret tt;
    Tap.cell_wait job;
    Tap.cell_raise_if_error job;
    Tap.cell_fetch job results ;;; Ret tt;
    Tap.cell_retrieve job async_results ;;; Ret tt ].

(** A TAP service at the address the notebook expects, whose results have
    15670 rows. *)
Definition rsp_tap : world unit := fun s f _ _ =>
  if String.eqb f ".baseurl" then (Ok (VStr "https://data.lsst.cloud/api/tap"), s)
  else if String.eqb f "len" then (Ok (VInt 15670), s)
  else (Ok (VObj 0), s).

End Cells.

(* ===================================================================== *)
(** * Theorems                                                            *)
(* ===================================================================== *)

Section GeomFacts.
Import Geom.

Lemma bbox_by_include_shape (x y w h : Z) :
  0 < w -> 0 < h ->
  bbox_by_include x y w h = mkBox2I (mkPoint2I x y) (mkExtent2I (w + 1) (h + 1)).
Proof.
  intros Hw Hh. unfold bbox_by_include, include; simpl.
  repeat match goal with
         | |- context [?a <? ?b] => destruct (Z.ltb_spec a b); try lia
         end.
  f_equal. f_equal; lia.
Qed.

Lemma bbox_by_extent_shape (x y w h : Z) :
  0 < w -> 0 < h ->
  bbox_by_extent x y w h = mkBox2I (mkPoint2I x y) (mkExtent2I w h).
Proof.
  intros Hw Hh. unfold bbox_by_extent, Box2I_of_extent; simpl.
  destruct (Z.eqb_spec w 0); [lia|]. destruct (Z.eqb_spec h 0); [lia|].
  simpl. destruct (Z.ltb_spec w 0); [lia|]. destruct (Z.ltb_spec h 0); [lia|].
  reflexivity.
Qed.

(** The two constructions never agree on a box of positive size: the one
    built with [include] is one pixel wider and one pixel taller. *)
Lemma bbox_include_one_larger (x y w h : Z) :
  0 < w -> 0 < h ->
  getWidth (bbox_by_include x y w h) = getWidth (bbox_by_extent x y w h) + 1 /\
  getHeight (bbox_by_include x y w h) = getHeight (bbox_by_extent x y w h) + 1 /\
  getMin (bbox_by_include x y w h) = getMin (bbox_by_extent x y w h) /\
  bbox_by_include x y w h <> bbox_by_extent x y w h.
Proof.
  intros Hw Hh.
  rewrite bbox_by_include_shape, bbox_by_extent_shape by assumption.
  repeat split; intros; try discriminate.
  intros E. inversion E. lia.
Qed.

(** C9.  At the notebook's own values (target (1700, 2100), 400 x 400) the
    box built with two [include] calls covers 401 x 401 pixels, from
    (1500, 1900) to (1900, 2300), and the box of the commented-out
    alternative covers 400 x 400 pixels, up to (1899, 2299): the two
    constructions do not define the same cutout region. *)
Theorem cutout_bbox_differs_from_alternative :
  Geom.cutout_bbox =
    mkBox2I (mkPoint2I 1500 1900) (mkExtent2I 401 401) /\
  Geom.cutout_bbox_alternative =
    mkBox2I (mkPoint2I 1500 1900) (mkExtent2I 400 400) /\
  getMax Geom.cutout_bbox = mkPoint2I 1900 2300 /\
  getMax Geom.cutout_bbox_alternative = mkPoint2I 1899 2299 /\
  contains Geom.cutout_bbox (mkPoint2I 1900 2300) = true /\
  contains Geom.cutout_bbox_alternative (mkPoint2I 1900 2300) = false /\
  Geom.cutout_bbox <> Geom.cutout_bbox_alternative.
Proof.
  repeat split; try reflexivity. intros E. discriminate E.
Qed.

End GeomFacts.

Section PandasFacts.
Import Py Pandas.

Implicit Types (l : list row) (key : row -> Z) (x y : row) (tf : bool).

Lemma insert_row_perm tf key x l :
  Permutation (insert_row tf key x l) (x :: l).
Proof.
  induction l as [|y l IH]; simpl; [reflexivity|].
  destruct (if tf then _ else _); [reflexivity|].
  rewrite IH. apply perm_swap.
Qed.

Lemma insert_row_head tf key x y l :
  (if tf then key x <=? key y else key x <? key y) = false -> key y <= key x.
Proof. destruct tf; intros H; lia. Qed.

Lemma insert_row_sorted tf key x l :
  Sorted (key_le key) l -> Sorted (key_le key) (insert_row tf key x l).
Proof.
  induction 1 as [|y l Hs IH Hd]; simpl.
  - repeat constructor.
  - destruct (if tf then _ else _) eqn:E.
    + constructor; [constructor; assumption|].
      constructor. unfold key_le. destruct tf; lia.
    + constructor; [exact IH|].
      apply (insert_row_head tf key x y l) in E.
      destruct l as [|z l]; simpl.
      * constructor. exact E.
      * destruct (if tf then _ else _); constructor; [exact E|].
        inversion Hd; assumption.
Qed.

Lemma insertion_sort_contract tf : sort_contract (insertion_sort tf).
Proof.
  intros key l. unfold insertion_sort. split.
  - induction l as [|x l IH]; simpl; [reflexivity|].
    rewrite insert_row_perm. constructor. exact IH.
  - induction l as [|x l IH]; simpl; [constructor|].
    apply insert_row_sorted, IH.
Qed.

Lemma key_le_trans key : Transitive (key_le key).
Proof. intros a b c; unfold key_le; lia. Qed.

(** With pairwise distinct keys there is one sorted arrangement. *)
Lemma sorted_perm_unique key l1 l2 :
  Sorted (key_le key) l1 -> Sorted (key_le key) l2 ->
  Permutation l1 l2 -> NoDup (map key l1) -> l1 = l2.
Proof.
  intros S1 S2.
  apply (Sorted_StronglySorted (key_le_trans key)) in S1.
  apply (Sorted_StronglySorted (key_le_trans key)) in S2.
  revert l2 S2. induction S1 as [|a l1 S1 IH Ha]; intros l2 S2 HP HN.
  - apply Permutation_nil in HP. congruence.
  - destruct l2 as [|b l2]; [apply Permutation_sym, Permutation_nil in HP; discriminate|].
    inversion S2 as [|? ? S2' Hb]; subst.
    simpl in HN. apply NoDup_cons in HN as [Hna HN].
    assert (a = b) as ->.
    { assert (Hin : In b (a :: l1))
        by (eapply Permutation_in; [symmetry; exact HP | left; reflexivity]).
      destruct Hin as [->|Hin]; [reflexivity|].
      assert (Hin' : In a (b :: l2))
        by (eapply Permutation_in; [exact HP | left; reflexivity]).
      destruct Hin' as [->|Hin']; [reflexivity|].
      rewrite Forall_forall in Ha, Hb.
      pose proof (Ha b (proj2 (list_elem_of_In _ _) Hin)) as Hab.
      pose proof (Hb a (proj2 (list_elem_of_In _ _) Hin')) as Hba.
      unfold key_le in Hab, Hba. exfalso. apply Hna.
      apply list_elem_of_In. replace (key a) with (key b) by lia.
      apply in_map. exact Hin. }
    f_equal. apply IH; [assumption| |assumption].
    eapply Permutation_cons_inv; exact HP.
Qed.

(** Unfold the first label of [seqZ s (n + 1)]. *)
Ltac seqZ_step n :=
  cbn [length];
  rewrite (seqZ_cons _ (Z.of_nat (S n))) by lia;
  replace (Z.pred (Z.of_nat (S n))) with (Z.of_nat n) by lia.

(** Setting the index to 0, 1, ... keeps the cells of every row. *)
Lemma relabel_cells (s : Z) l :
  map cells (with_labels (seqZ s (Z.of_nat (length l))) l) = map cells l.
Proof.
  revert s. induction l as [|r l IH]; intros s; [reflexivity|].
  seqZ_step (length l). unfold with_labels in *. simpl. f_equal. apply IH.
Qed.

Lemma relabel_labels (s : Z) l :
  map label (with_labels (seqZ s (Z.of_nat (length l))) l)
  = seqZ s (Z.of_nat (length l)).
Proof.
  revert s. induction l as [|r l IH]; intros s; [reflexivity|].
  seqZ_step (length l). unfold with_labels in *. simpl. f_equal. apply IH.
Qed.

Lemma relabel_fixed (s : Z) l :
  map label l = seqZ s (Z.of_nat (length l)) ->
  with_labels (seqZ s (Z.of_nat (length l))) l = l.
Proof.
  revert s. induction l as [|[k c] l IH]; intros s; [reflexivity|].
  seqZ_step (length l). unfold with_labels in *. simpl. intros E. injection E as -> E. f_equal. apply IH, E.
Qed.

Lemma sorted_cells_ext (p : nat) l1 l2 :
  map cells l1 = map cells l2 ->
  Sorted (key_le (cell p)) l1 -> Sorted (key_le (cell p)) l2.
Proof.
  intros E S. revert l2 E.
  induction S as [|a l1 S IH Hd]; intros [|b l2] E; try discriminate;
    [constructor|].
  simpl in E. injection E as Eab E. constructor; [apply IH, E|].
  destruct l2 as [|b' l2]; [constructor|].
  destruct l1 as [|a' l1]; [discriminate|].
  simpl in E. injection E as Ea' _. inversion Hd as [|? ? Hle]; subst.
  constructor. unfold key_le, cell in *. rewrite <- Eab, <- Ea'. exact Hle.
Qed.

Lemma cell_keys (p : nat) l :
  map (cell p) l = map (fun c => nth p c 0) (map cells l).
Proof. rewrite map_map. reflexivity. Qed.

Lemma insertion_sort_keeps_sorted : keeps_sorted (insertion_sort true).
Proof.
  intros key l Hs. unfold insertion_sort.
  induction Hs as [|a l Hs IH Hd]; [reflexivity|].
  simpl. rewrite IH. destruct Hd as [|b l Hab]; [reflexivity|].
  simpl. unfold key_le in Hab.
  destruct (Z.leb_spec (key a) (key b)); [reflexivity|lia].
Qed.




End PandasFacts.

Section ProgFacts.
Import Py.

Context {S : Type}.
Implicit Types (w : world S) (s : S).

Lemma run_bind {A B} w (p : prog A) (f : A -> prog B) s :
  run w (bind p f) s =
  match run w p s with
  | (Ok a, s1, tr1) =>
      let '(o, s2, tr2) := run w (f a) s1 in (o, s2, tr1 ++ tr2)
  | (Raised e, s1, tr1) => (Raised e, s1, tr1)
  end.
Proof.
  revert s. induction p as [a|g args kwargs k IH|e]; intros s; simpl.
  - destruct (run w (f a) s) as [[o s2] tr2]; reflexivity.
  - destruct (w s g args kwargs) as [[v|e] s1]; [|reflexivity].
    rewrite IH. destruct (run w (k v) s1) as [[[a|e] s2] tr1]; [|reflexivity].
    destruct (run w (f a) s2) as [[o s3] tr2]; reflexivity.
  - reflexivity.
Qed.

Lemma run_bind_ok {A B} w (p : prog A) (f : A -> prog B) s (b : B) s' tr :
  run w (bind p f) s = (Ok b, s', tr) ->
  exists a s1 tr1 tr2,
    run w p s = (Ok a, s1, tr1) /\ run w (f a) s1 = (Ok b, s', tr2) /\
    tr = tr1 ++ tr2.
Proof.
  rewrite run_bind. destruct (run w p s) as [[[a|e] s1] tr1]; [|discriminate].
  destruct (run w (f a) s1) as [[o s2] tr2] eqn:E. intros H.
  injection H as -> -> <-. exists a, s1, tr1, tr2. auto.
Qed.

Lemma run_Call_ok {A} w g args kwargs (k : val -> prog A) s (a : A) s' tr :
  run w (Call g args kwargs k) s = (Ok a, s', tr) ->
  exists v s1 tr1,
    w s g args kwargs = (Ok v, s1) /\ run w (k v) s1 = (Ok a, s', tr1) /\
    tr = mkCall g args kwargs (Ok v) :: tr1.
Proof.
  simpl. destruct (w s g args kwargs) as [[v|e] s1]; [|discriminate].
  destruct (run w (k v) s1) as [[o s2] tr1] eqn:E. intros H.
  injection H as -> -> <-. exists v, s1, tr1. auto.
Qed.

Lemma run_Ret_ok {A} w (a b : A) s s' tr :
  run w (Ret a) s = (Ok b, s', tr) -> b = a /\ s' = s /\ tr = [].
Proof. simpl. intros H. injection H as -> -> <-. auto. Qed.

(** An exception raised by an external call ends the run at that call. *)
Lemma raised_call_is_last {A} w (p : prog A) s c e :
  In c (trace (run w p s)) -> response c = Raised e ->
  result (run w p s) = Raised e /\ last (trace (run w p s)) = Some c.
Proof.
  revert s. induction p as [a|g args kwargs k IH|e0]; intros s; simpl;
    try contradiction.
  destruct (w s g args kwargs) as [[v|e1] s1].
  - specialize (IH v s1).
    destruct (run w (k v) s1) as [[o s2] tr1].
    unfold trace, result in *. simpl in *.
    intros [<-|Hin] Hr; [discriminate Hr|].
    destruct (IH Hin Hr) as [-> Hl]. split; [reflexivity|].
    destruct tr1; [contradiction|exact Hl].
  - unfold trace, result. simpl. intros [<-|[]] Hr. simpl in Hr.
    injection Hr as ->. auto.
Qed.

(** Where an exception comes from, in a program that raises only through
    [assert]. *)
Lemma raise_origin {A} w (p : prog A) s e :
  asserts_only p ->
  result (run w p s) = Raised e ->
  (exists c, last (trace (run w p s)) = Some c /\ response c = Raised e) \/
  (e = AssertionError /\ Forall answered (trace (run w p s))).
Proof.
  intros Hp. revert s. induction Hp as [a|g args kwargs k _ IH|]; intros s; simpl.
  - discriminate.
  - destruct (w s g args kwargs) as [[v|e1] s1].
    + specialize (IH v s1).
      destruct (run w (k v) s1) as [[o s2] tr1].
      unfold trace, result in *. simpl in *. intros Hr.
      destruct (IH Hr) as [(c & Hl & Hc)|[-> Hf]].
      * left. exists c. split; [|exact Hc].
        destruct tr1; [discriminate Hl|exact Hl].
      * right. split; [reflexivity|].
        constructor; [eexists; reflexivity|exact Hf].
    + unfold trace, result. simpl. intros Hr. injection Hr as ->.
      left. eexists. split; reflexivity.
  - unfold trace, result. simpl. intros Hr. injection Hr as <-.
    right. split; [reflexivity|constructor].
Qed.

End ProgFacts.

Lemma asserts_only_bind {A B} (p : Py.prog A) (f : A -> Py.prog B) :
  Py.asserts_only p -> (forall a, Py.asserts_only (f a)) ->
  Py.asserts_only (Py.bind p f).
Proof.
  induction 1; intros Hf; simpl; try constructor; auto.
Qed.

Lemma asserts_only_call f args kwargs :
  Py.asserts_only (Py.call f args kwargs).
Proof. constructor. intros v. constructor. Qed.

Lemma asserts_only_assert b : Py.asserts_only (Py.py_assert b).
Proof. destruct b; constructor. Qed.

(** Programs built from calls, [assert] and sequencing. *)
Ltac asserts_only :=
  repeat first
    [ apply asserts_only_bind; [|intros ?]
    | apply asserts_only_call
    | apply asserts_only_assert
    | apply Py.ao_ret
    | progress unfold Py.method, Py.attr, Tap.to_pandas,
        Helpers.TapQueries.sort_dataframe ].

(** Invert one step of a run that returned. *)
Ltac step_ok H :=
  first
    [ apply run_Call_ok in H;
      let v := fresh "v" in let s1 := fresh "s" in let tr1 := fresh "tr" in
      let Hw := fresh "Hw" in
      destruct H as (v & s1 & tr1 & Hw & H & ->)
    | apply run_Ret_ok in H; destruct H as (-> & -> & ->)
    | apply run_Ret_ok in H; destruct H as (_ & -> & ->) ].

(** A run that returned passed every [assert] on its way. *)
Ltac pass_assert H :=
  match type of H with
  | context [Py.py_assert ?b] =>
      let E := fresh "Hassert" in
      destruct b eqn:E; cbn [Py.py_assert Py.bind] in H; [|discriminate H]
  end.

Section HelperFacts.
Import Py Helpers.

(** Take a program apart along the calls of a run that returned. *)
Ltac step_run H :=
  first
    [ apply run_Call_ok in H;
      let v := fresh "v" in let s1 := fresh "s" in let tr1 := fresh "tr" in
      let Hw := fresh "Hw" in
      destruct H as (v & s1 & tr1 & Hw & H & ->)
    | apply run_Ret_ok in H; destruct H as (-> & -> & ->) ].

Ltac last_response :=
  right; repeat first [ apply Exists_cons_hd; reflexivity
                      | apply Exists_cons_tl ].

Lemma cutout_coadd_intro_returns butler ra dec band dt skymap side :
  returns_call_result (ButlerIntro.cutout_coadd butler ra dec band dt skymap side).
Proof.
  intros S w s s' v tr H. unfold ButlerIntro.cutout_coadd in H.
  destruct skymap; cbn [bind call method attr is_none] in H;
    repeat step_run H; last_response.
Qed.

Lemma cutout_coadd_display_returns butler ra dec band dt skymap side :
  returns_call_result (ImageDisplay.cutout_coadd butler ra dec band dt skymap side).
Proof.
  intros S w s s' v tr H. unfold ImageDisplay.cutout_coadd in H.
  destruct skymap; cbn [bind call method attr is_none] in H;
    repeat step_run H; last_response.
Qed.

Lemma sort_dataframe_returns df k :
  returns_call_result (TapQueries.sort_dataframe df k).
Proof.
  intros S w s s' v tr H. unfold TapQueries.sort_dataframe in H.
  cbn [bind call method attr] in H. repeat step_run H. last_response.
Qed.

Lemma createRGB_returns image bgr stretch Q scale :
  returns_call_result (ImageDisplay.createRGB image bgr stretch Q scale).
Proof.
  intros S w s s' v tr H. unfold ImageDisplay.createRGB in H.
  apply run_bind_ok in H as (n & s1 & tr1 & tr2 & _ & H & ->).
  apply run_bind_ok in H as (bgr' & s2 & tr3 & tr4 & _ & H & ->).
  apply run_bind_ok in H as ([[r_im g_im] b_im] & s3 & tr5 & tr6 & _ & H & ->).
  cbn [bind call] in H. repeat step_run H.
  right. rewrite !Exists_app. do 3 right. apply Exists_cons_hd. reflexivity.
Qed.

Lemma remove_figure_returns fig :
  returns_call_result (ImageDisplay.remove_figure fig).
Proof.
  intros S w s s' v tr H. unfold ImageDisplay.remove_figure in H.
  do 6 (apply run_bind_ok in H as (? & ? & ? & ? & _ & H & _)).
  apply run_Ret_ok in H as (-> & _). left. reflexivity.
Qed.

Lemma dataIdToString_loop_pure {S} (w : world S) s items title :
  forallb (fun kv => scalar (snd kv)) items = true ->
  exists t, run w (HoloViz.dataIdToString_loop title items) s = (Ok t, s, []).
Proof.
  revert title. induction items as [|[k v] items IH]; intros title Hs.
  - exists title. reflexivity.
  - simpl in Hs. apply andb_true_iff in Hs as [Hv Hs].
    cbn [HoloViz.dataIdToString_loop].
    destruct v as [| [|] | | | | | |]; try discriminate Hv;
      cbn [py_str bind]; apply IH, Hs.
Qed.

(** C1, as amended.  The notebooks define six functions of their own.
    Both copies of [cutout_coadd], [createRGB] and [sort_dataframe]
    return a value that an external call returned to them, and
    [remove_figure] returns None; [dataIdToString] makes no external call
    on a dataId of numbers and strings and builds the plot title itself,
    "DC2 image: visit: 192350 detector: 175 band: i" for the notebook's
    calexpId. *)
Theorem helpers_return_external_results :
  (forall butler ra dec band dt skymap side,
      returns_call_result
        (ButlerIntro.cutout_coadd butler ra dec band dt skymap side)) /\
  (forall butler ra dec band dt skymap side,
      returns_call_result
        (ImageDisplay.cutout_coadd butler ra dec band dt skymap side)) /\
  (forall image bgr stretch Q scale,
      returns_call_result (ImageDisplay.createRGB image bgr stretch Q scale)) /\
  (forall fig, returns_call_result (ImageDisplay.remove_figure fig)) /\
  (forall df k, returns_call_result (TapQueries.sort_dataframe df k)) /\
  (forall (S : Type) (w : world S) (s : S) dataId,
      forallb (fun kv => scalar (snd kv)) dataId = true ->
      exists title,
        run w (HoloViz.dataIdToString dataId) s = (Ok (VStr title), s, [])) /\
  (forall (S : Type) (w : world S) (s : S),
      run w (HoloViz.dataIdToString HoloViz.calexpId) s
      = (Ok (VStr "DC2 image: visit: 192350 detector: 175 band: i"), s, [])).
Proof.
  split; [exact cutout_coadd_intro_returns|].
  split; [exact cutout_coadd_display_returns|].
  split; [exact createRGB_returns|].
  split; [exact remove_figure_returns|].
  split; [exact sort_dataframe_returns|].
  split; [|reflexivity].
  intros S w s dataId Hs. unfold HoloViz.dataIdToString.
  destruct (dataIdToString_loop_pure w s dataId "DC2 image: " Hs) as [t Ht].
  exists (strip t). rewrite run_bind, Ht. reflexivity.
Qed.

(** The theorem at the notebook's calexpId and at a cutout request. *)
Lemma helpers_return_external_results_witness :
  forallb (fun kv => scalar (snd kv)) HoloViz.calexpId = true /\
  (exists title,
     run quiet_example (HoloViz.dataIdToString HoloViz.calexpId) tt
     = (Ok (VStr title), tt, [])) /\
  returns_call_result
    (ImageDisplay.cutout_coadd (VObj 1) (VFloat "55.064") (VFloat "-29.783")
       band_default datasetType_default skymap_default (VInt 201)).
Proof.
  split; [reflexivity|].
  destruct helpers_return_external_results
    as (_ & Hc & _ & _ & _ & Ht & _).
  split; [apply Ht; reflexivity | apply Hc].
Defined.

(** C1 as stated fails: [dataIdToString] returns a string that no external
    call produced; it makes no external call at all. *)
Lemma dataIdToString_result_is_its_own :
  ~ (forall dataId, returns_call_result (HoloViz.dataIdToString dataId)).
Proof.
  intros H.
  destruct (H HoloViz.calexpId unit quiet_example tt tt
              (VStr "DC2 image: visit: 192350 detector: 175 band: i") []
              eq_refl) as [E|E].
  - discriminate E.
  - inversion E.
Qed.

(** C8.  The two definitions of [cutout_coadd] are the same program: for
    every butler, position, band, dataset type, skymap and side length,
    and against every external world, they make the same external calls
    with the same arguments in the same order (the same bounding box,
    the same coaddId, the same [butler.get]) and end with the same
    result. *)
Theorem cutout_coadd_definitions_agree :
  forall butler ra dec band datasetType skymap cutoutSideLength,
    ButlerIntro.cutout_coadd butler ra dec band datasetType skymap
      cutoutSideLength
    = ImageDisplay.cutout_coadd butler ra dec band datasetType skymap
        cutoutSideLength /\
    forall (S : Type) (w : world S) (s : S),
      run w (ButlerIntro.cutout_coadd butler ra dec band datasetType skymap
               cutoutSideLength) s
      = run w (ImageDisplay.cutout_coadd butler ra dec band datasetType skymap
                 cutoutSideLength) s /\
      forall s' v tr,
        run w (ImageDisplay.cutout_coadd butler ra dec band datasetType
                 skymap cutoutSideLength) s = (Ok v, s', tr) ->
        exists bbox tract patch,
          last tr =
            Some (mkCall "get" [butler; datasetType]
                    [("parameters", VDict [("bbox", bbox)]);
                     ("dataId", VDict [("tract", tract); ("patch", patch);
                                       ("band", band)])]
                    (Ok v)) /\
          Exists (fun c => callee c = "geom.BoxI" /\ response c = Ok bbox) tr /\
          Exists (fun c => callee c = "getId" /\ response c = Ok tract) tr /\
          Exists (fun c => callee c = "getSequentialPatchIndex" /\
                           response c = Ok patch) tr.
Proof.
  intros. split; [reflexivity|]. intros S w s. split; [reflexivity|].
  intros s' v tr H. unfold ImageDisplay.cutout_coadd in H.
  destruct skymap; cbn [bind call method attr is_none] in H;
    repeat step_run H;
    (do 3 eexists; split; [reflexivity|];
     repeat split;
     repeat first [ apply Exists_cons_hd; split; reflexivity
                  | apply Exists_cons_tl ]).
Qed.

(** The theorem at the cutout of the Butler notebook, in a world that
    answers every call. *)
Lemma cutout_coadd_definitions_agree_witness :
  exists bbox tract patch,
    last (trace (run quiet_example
                   (ImageDisplay.cutout_coadd (VObj 1) (VFloat "55.064")
                      (VFloat "-29.783") band_default datasetType_default
                      skymap_default (VInt 201)) tt)) =
      Some (mkCall "get" [VObj 1; datasetType_default]
              [("parameters", VDict [("bbox", bbox)]);
               ("dataId", VDict [("tract", tract); ("patch", patch);
                                 ("band", band_default)])]
              (Ok (VObj 0%N))).
Proof.
  destruct (cutout_coadd_definitions_agree (VObj 1) (VFloat "55.064")
              (VFloat "-29.783") band_default datasetType_default
              skymap_default (VInt 201)) as [_ H].
  destruct (H unit quiet_example tt) as [_ H'].
  destruct (H' tt (VObj 0%N) _ eq_refl) as (bbox & tract & patch & Hl & _).
  exists bbox, tract, patch. exact Hl.
Defined.

End HelperFacts.

Section TapFacts.
Import Py Helpers Tap Cells.

Lemma checking_cells_assert_only
    butler service query results results1 job async_results :
  Forall asserts_only
    (checking_cells butler service query results results1 job async_results).
Proof.
  unfold checking_cells, cell_get_service, cell_search_top,
    cell_search_maxrec, cell_compare_frames, cell_search_count,
    cell_raise_if_error, cell_fetch, cell_retrieve,
    HoloViz.cell_get_calexp, HoloViz.cell_get_coadd.
  repeat (apply Forall_cons; split); try apply Forall_nil; try exact I;
    asserts_only.
Qed.

(** C2, as amended.  No notebook code catches an exception: when an
    external call raises, the run ends there with that exception.  The
    only exceptions the checking cells of the notebooks raise themselves
    are the AssertionErrors of their [assert] statements, raised after
    every external call was answered. *)
Theorem exceptions_propagate_uncaught :
  (forall (S A : Type) (w : world S) (p : prog A) (s : S) c e,
      In c (trace (run w p s)) -> response c = Raised e ->
      result (run w p s) = Raised e /\ last (trace (run w p s)) = Some c) /\
  (forall butler service query results results1 job async_results p,
      In p (checking_cells butler service query results results1 job
              async_results) ->
      forall (S : Type) (w : world S) (s : S) e,
        result (run w p s) = Raised e ->
        (exists c, last (trace (run w p s)) = Some c /\ response c = Raised e) \/
        (e = AssertionError /\ Forall answered (trace (run w p s)))).
Proof.
  split.
  - intros S A w p s c e. apply raised_call_is_last.
  - intros butler service query results results1 job async_results p Hin
      S w s e.
    apply raise_origin.
    pose proof (checking_cells_assert_only butler service query results
                  results1 job async_results) as Hall.
    rewrite Forall_forall in Hall. apply Hall, list_elem_of_In, Hin.
Qed.

(** The theorem at a search that fails and at the check of the base URL. *)
Lemma exceptions_propagate_uncaught_witness :
  result (run failing_service (cell_search_top (VObj 1) (VStr "q")) tt)
  = Raised (ExtError "DALServiceError") /\
  ((exists c,
      last (trace (run other_service (cell_get_service ;;; Ret tt) tt)) = Some c /\
      response c = Raised AssertionError) \/
   (AssertionError = AssertionError /\
    Forall answered (trace (run other_service (cell_get_service ;;; Ret tt) tt)))).
Proof.
  destruct exceptions_propagate_uncaught as [Hp Ho]. split.
  - apply (Hp unit val failing_service (cell_search_top (VObj 1) (VStr "q")) tt
              (mkCall "search" [VObj 1; VStr "q"] []
                 (Raised (ExtError "DALServiceError")))).
    + left. reflexivity.
    + reflexivity.
  - apply (Ho VNone VNone VNone VNone VNone VNone VNone (cell_get_service ;;; Ret tt)).
    + left. reflexivity.
    + reflexivity.
Defined.

(** C2 as stated fails on its last part: the cell that obtains the TAP
    service checks the base URL itself, and ends with an AssertionError
    although no external call raised. *)
Lemma assert_raises_without_external_failure :
  ~ (forall (S : Type) (w : world S) (s : S) e,
       result (run w cell_get_service s) = Raised e ->
       Exists (fun c => response c = Raised e) (trace (run w cell_get_service s))).
Proof.
  intros H. specialize (H unit other_service tt AssertionError eq_refl).
  vm_compute in H. repeat (inversion H as [? ? Hc|? ? H']; subst;
                           [discriminate Hc|clear H; rename H' into H]).
  inversion H.
Qed.

(** What the job cells do to the jobs held by the service. *)
Lemma submit_creates_job service query st :
  jobs (final (run tap_service (cell_submit service query) st)) !! next_job st
  = Some (mkJob query false).
Proof.
  unfold cell_submit. simpl. unfold job_call. simpl.
  repeat (rewrite lookup_insert_eq; simpl). reflexivity.
Qed.

Lemma run_starts_job j job st :
  jobs st !! j = Some job ->
  jobs (final (run tap_service (cell_run (VObj j)) st)) !! j
  = Some (mkJob (job_query job) true).
Proof.
  intros Hj. unfold cell_run. simpl. unfold job_call. rewrite Hj. simpl.
  rewrite lookup_alter_eq, Hj. reflexivity.
Qed.

Lemma delete_removes_job j st :
  jobs (final (run tap_service (cell_delete (VObj j)) st)) !! j = None.
Proof.
  unfold cell_delete. simpl. unfold job_call.
  destruct (jobs st !! j) eqn:E; simpl; [apply lookup_delete_eq|exact E].
Qed.

(** The two models change only on the modifying calls. *)
Lemma is_modifying_false f :
  is_modifying f = false ->
  String.eqb f "submit_job" = false /\ String.eqb f "run" = false /\
  String.eqb f "delete" = false /\ String.eqb f "mtv" = false /\
  String.eqb f "setMaskTransparency" = false /\
  String.eqb f "scale" = false /\ String.eqb f "dot" = false /\
  String.eqb f "erase" = false.
Proof.
  unfold is_modifying, modifying_calls. cbn [existsb].
  rewrite !orb_false_iff. tauto.
Qed.

Lemma tap_service_contract : changes_only_on_modifying tap_service.
Proof.
  intros st f args kwargs Hf.
  apply is_modifying_false in Hf as (Hs & Hr & Hd & _).
  unfold tap_service, job_call.
  destruct args as [|a [|q [|? ?]]]; try reflexivity.
  - destruct a; try reflexivity.
    + destruct (String.eqb f "retrieve_query"); [|reflexivity].
      destruct (find_job s st); reflexivity.
    + rewrite Hr, Hd.
      repeat match goal with
             | |- context [match ?x with _ => _ end] => destruct x
             end; reflexivity.
  - rewrite Hs. reflexivity.
Qed.

Lemma firefly_display_contract : changes_only_on_modifying firefly_display.
Proof.
  intros st f args kwargs Hf.
  apply is_modifying_false in Hf as (_ & _ & _ & Hm & Ht & Hs & Hd & He).
  unfold firefly_display. destruct args as [|d rest]; [reflexivity|].
  rewrite Hm, Ht, Hs, Hd, He. reflexivity.
Qed.

(** A program that makes no modifying call leaves such a service as it
    is, however the run ends. *)
Lemma retrieves_only_frame {S A} (w : world S) (p : prog A) (s : S) :
  changes_only_on_modifying w -> retrieves_only p -> final (run w p s) = s.
Proof.
  intros Hw Hp. revert s.
  induction Hp as [a|e|f args kwargs k Hf _ IH]; intros s; try reflexivity.
  simpl. pose proof (Hw s f args kwargs Hf) as Hs.
  destruct (w s f args kwargs) as [[v|e] s1]; simpl in Hs; subst s1.
  - specialize (IH v s). destruct (run w (k v) s) as [[o s2] tr].
    exact IH.
  - reflexivity.
Qed.

Lemma retrieves_only_bind {A B} (p : prog A) (f : A -> prog B) :
  retrieves_only p -> (forall a, retrieves_only (f a)) ->
  retrieves_only (bind p f).
Proof.
  induction 1; intros Hf; simpl; try constructor; auto.
Qed.

Lemma retrieves_only_assert b : retrieves_only (py_assert b).
Proof. destruct b; constructor. Qed.

Lemma file_uris_retrieve_only butler datasetRefs :
  retrieves_only (cell_file_uris butler datasetRefs).
Proof.
  unfold cell_file_uris. generalize 0 as i.
  induction datasetRefs as [|ref refs IH]; intros i; [constructor|].
  cbn [enumerate_break bind call method].
  repeat (apply ro_call; [reflexivity|intros ?]).
  destruct (2 <? i); [constructor|apply IH].
Qed.

(** The code around the data requests makes no modifying call. *)
Lemma data_request_cells_retrieve_only
    registry collection butler datasetRefs
    ra dec band datasetType skymap cutoutSideLength
    service query results results1 job async_results :
  Forall retrieves_only
    (data_request_cells registry collection butler datasetRefs
       ra dec band datasetType skymap cutoutSideLength
       service query results results1 job async_results).
Proof.
  unfold data_request_cells.
  apply Forall_cons; split;
    [unfold cell_query_datasets; cbn [bind call method];
     repeat first [apply ro_call; [reflexivity|intros ?] | apply ro_ret]|].
  apply Forall_cons; split; [apply file_uris_retrieve_only|].
  unfold ButlerIntro.cutout_coadd,
    ImageDisplay.cutout_coadd, HoloViz.cell_get_calexp,
    HoloViz.cell_get_coadd, cell_get_service, cell_search_top,
    cell_search_maxrec, cell_compare_frames, cell_search_count, cell_wait,
    cell_raise_if_error, cell_fetch, cell_retrieve, to_pandas,
    TapQueries.sort_dataframe.
  repeat (apply Forall_cons; split); try apply Forall_nil; try exact I;
    destruct skymap; cbn [bind call method attr is_none];
    repeat first
      [ apply ro_call; [reflexivity|intros ?]
      | apply ro_ret
      | apply ro_raise
      | match goal with
        | |- context [py_assert ?b] => destruct b; cbn [py_assert bind]
        end ].
Qed.


(** What the display cells do to the Firefly display. *)
Lemma mtv_shows_image afw_display image st :
  run firefly_display (cell_mtv afw_display image) st
  = (Ok tt, mkDisplay (Some image) (settings st) (markers st),
     [mkCall "mtv" [afw_display; image] [] (Ok VNone)]).
Proof. reflexivity. Qed.

Lemma dot_adds_marker afw_display record ctype st :
  final (run firefly_display (stmt_dot afw_display record ctype) st)
  = mkDisplay (shown st) (settings st)
      (markers st ++ [([VStr "o"; VObj 0; VObj 0],
                       [("size", VInt 20); ("ctype", ctype)])]).
Proof. reflexivity. Qed.

Lemma erase_clears_markers afw_display st :
  final (run firefly_display (cell_erase afw_display) st)
  = mkDisplay (shown st) (settings st) [].
Proof. reflexivity. Qed.

End TapFacts.

Section NotebookFacts.
Import Notebooks.

Lemma env_le_refl e : env_le e e.
Proof. split; reflexivity. Qed.

Lemma env_le_trans e1 e2 e3 : env_le e1 e2 -> env_le e2 e3 -> env_le e1 e3.
Proof. intros [? ?] [? ?]. split; set_solver. Qed.

Lemma ready_spec e st :
  ready e st = true <->
  (forall h, In h (handle_uses st) -> h ∈ handles e) /\
  (forall x, In x (value_uses st) -> x ∈ values e).
Proof.
  unfold ready. rewrite andb_true_iff, !forallb_forall.
  split; intros [H1 H2]; split; intros y Hy.
  - specialize (H1 y Hy). apply bool_decide_eq_true in H1. exact H1.
  - specialize (H2 y Hy). apply bool_decide_eq_true in H2. exact H2.
  - apply bool_decide_eq_true. exact (H1 y Hy).
  - apply bool_decide_eq_true. exact (H2 y Hy).
Qed.

Lemma ready_mono e1 e2 st :
  env_le e1 e2 -> ready e1 st = true -> ready e2 st = true.
Proof.
  intros [Hh Hv]. rewrite !ready_spec. intros [H1 H2].
  split; intros y Hy; [apply Hh, H1, Hy | apply Hv, H2, Hy].
Qed.

Lemma after_mono e1 e2 st : env_le e1 e2 -> env_le (after e1 st) (after e2 st).
Proof. intros [? ?]. split; simpl; set_solver. Qed.

Lemma after_ge e st : env_le e (after e st).
Proof. split; simpl; set_solver. Qed.

Lemma exec_ge l e e' : exec l e = Some e' -> env_le e e'.
Proof.
  revert e. induction l as [|st l IH]; intros e; simpl.
  - intros [= <-]. apply env_le_refl.
  - destruct (ready e st); [|discriminate]. intros H.
    eapply env_le_trans; [apply after_ge | apply IH, H].
Qed.

Lemma exec_mono l e1 e2 e1' :
  env_le e1 e2 -> exec l e1 = Some e1' ->
  exists e2', exec l e2 = Some e2' /\ env_le e1' e2'.
Proof.
  revert e1 e2. induction l as [|st l IH]; intros e1 e2 Hle; simpl.
  - intros [= <-]. eauto.
  - destruct (ready e1 st) eqn:Hr; [|discriminate].
    rewrite (ready_mono e1 e2 st Hle Hr). apply IH, after_mono, Hle.
Qed.

Lemma exec_app l1 l2 e :
  exec (l1 ++ l2) e =
  match exec l1 e with Some e1 => exec l2 e1 | None => None end.
Proof.
  revert e. induction l1 as [|st l1 IH]; intros e; simpl; [reflexivity|].
  destruct (ready e st); [apply IH|reflexivity].
Qed.

(** A loop body that runs once runs any number of times. *)
Lemma exec_replicate body e e1 n e2 :
  exec body e = Some e1 -> env_le e e2 ->
  exists e2', exec (concat (replicate n body)) e2 = Some e2' /\ env_le e2 e2'.
Proof.
  intros Hb. revert e2. induction n as [|n IH]; intros e2 Hle; simpl.
  - exists e2. split; [reflexivity|apply env_le_refl].
  - rewrite exec_app.
    destruct (exec_mono body e e2 e1 Hle Hb) as (e3 & He3 & _).
    rewrite He3. pose proof (exec_ge body e2 e3 He3) as H23.
    destruct (IH e3 (env_le_trans _ _ _ Hle H23)) as (e4 & He4 & H34).
    exists e4. split; [exact He4|]. eapply env_le_trans; eassumption.
Qed.

(** A notebook that passes [check] runs whatever the loop counts are. *)
Lemma check_sound nb e e' counts e2 :
  check nb e = Some e' -> env_le e e2 ->
  exists e2', exec (unroll counts nb) e2 = Some e2'.
Proof.
  revert e e2 counts. induction nb as [|[st|body] nb IH];
    intros e e2 counts; simpl.
  - eauto.
  - destruct (ready e st) eqn:Hr; [|discriminate]. intros Hc Hle.
    rewrite (ready_mono e e2 st Hle Hr).
    eapply IH; [exact Hc|apply after_mono, Hle].
  - destruct (exec body e) as [e1|] eqn:Hb; [|discriminate]. intros Hc Hle.
    destruct counts as [|n counts].
    + eapply IH; eassumption.
    + rewrite exec_app.
      destruct (exec_replicate body e e1 n e2 Hb Hle) as (e3 & -> & H23).
      eapply IH; [exact Hc|]. eapply env_le_trans; eassumption.
Qed.

(** Steps that run from an environment use only what it had or what an
    earlier step provided. *)
Lemma exec_uses_earlier l e e' :
  exec l e = Some e' ->
  forall i st, l !! i = Some st ->
    (forall h, In h (handle_uses st) -> h ∈ handles e ∪ handles_before l i) /\
    (forall x, In x (value_uses st) -> x ∈ values e ∪ values_before l i).
Proof.
  revert e. induction l as [|st0 l IH]; intros e He i st Hi;
    [destruct i; discriminate|].
  simpl in He. destruct (ready e st0) eqn:Hr; [|discriminate].
  destruct i as [|i]; simpl in Hi.
  - injection Hi as <-. apply ready_spec in Hr as [H1 H2].
    split; intros y Hy; [specialize (H1 y Hy) | specialize (H2 y Hy)];
      set_solver.
  - destruct (IH _ He i st Hi) as [H1 H2].
    unfold handles_before, values_before in *. simpl.
    rewrite !list_to_set_app_L.
    split; intros y Hy; [specialize (H1 y Hy) | specialize (H2 y Hy)];
      simpl in *; set_solver.
Qed.

Lemma exec_in_order l e' : exec l empty_env = Some e' -> in_order l.
Proof.
  intros He i st Hi. destruct (exec_uses_earlier l _ _ He i st Hi) as [H1 H2].
  split; intros y Hy; [specialize (H1 y Hy) | specialize (H2 y Hy)];
    simpl in *; set_solver.
Qed.

(** A notebook that passes [check_entered] runs whenever each of its
    loops runs at least once. *)
Lemma check_entered_sound nb e e' counts e2 :
  check_entered nb e = Some e' -> env_le e e2 ->
  loops_entered counts nb = true ->
  exists e2', exec (unroll counts nb) e2 = Some e2'.
Proof.
  revert e e2 counts. induction nb as [|[st|body] nb IH];
    intros e e2 counts; simpl.
  - eauto.
  - destruct (ready e st) eqn:Hr; [|discriminate]. intros Hc Hle Hn.
    rewrite (ready_mono e e2 st Hle Hr).
    eapply IH; [exact Hc|apply after_mono, Hle|exact Hn].
  - destruct (exec body e) as [e1|] eqn:Hb; [|discriminate]. intros Hc Hle.
    destruct counts as [|[|n] counts]; try discriminate. simpl. intros Hn.
    rewrite <- app_assoc, exec_app.
    destruct (exec_mono body e e2 e1 Hle Hb) as (e3 & He3 & H13).
    rewrite He3, exec_app. pose proof (exec_ge body e2 e3 He3) as H23.
    destruct (exec_replicate body e e1 n e3 Hb
                (env_le_trans _ _ _ Hle H23)) as (e4 & -> & H34).
    eapply IH; [exact Hc| |exact Hn]. eapply env_le_trans; eassumption.
Qed.

(** Case analysis on the nine notebooks. *)
Ltac each_notebook H :=
  unfold all_notebooks in H; simpl in H;
  repeat (destruct H as [<-|H]); [..|contradiction].

(** Eight notebooks bind every name before use whatever their loops do;
    the TAP notebook does when its loop over the schema names binds
    [dp01_schema_name]. *)
Lemma all_notebooks_run nb counts :
  In nb all_notebooks ->
  (nb = tap_intermediate -> loops_entered counts nb = true) ->
  exists e, exec (unroll counts nb) empty_env = Some e.
Proof.
  intros Hnb Hloop. each_notebook Hnb;
    try (eapply (check_sound _ empty_env);
         [vm_compute; reflexivity|apply env_le_refl]).
  eapply (check_entered_sound _ empty_env);
    [vm_compute; reflexivity | apply env_le_refl | apply Hloop; reflexivity].
Qed.

(** Without a matching schema name the TAP notebook prints a name that
    no step has bound. *)
Lemma tap_intermediate_needs_schema counts :
  loops_entered counts tap_intermediate = false ->
  ~ in_order (unroll counts tap_intermediate).
Proof.
  intros Hloop Hord.
  assert (Hl : unroll counts tap_intermediate = unroll [] tap_intermediate).
  { destruct counts as [|[|n] counts]; try reflexivity. discriminate Hloop. }
  rewrite Hl in Hord.
  destruct (Hord 6%nat (Print ["dp01_schema_name"]) eq_refl) as [_ Hv].
  specialize (Hv "dp01_schema_name" (or_introl eq_refl)).
  assert (Hn : bool_decide ("dp01_schema_name"
                            ∈ values_before (unroll [] tap_intermediate) 6)
               = false) by (vm_compute; reflexivity).
  apply bool_decide_eq_false in Hn. contradiction.
Qed.

(** Where the four kinds of step sit in the source-detection notebook when
    its loop runs once: the Butler is obtained at step 1, the calexp
    requested at step 2, the tasks run at steps 11, 13, 15 and 16, and
    the detected sources are drawn at steps 20 and 21. *)
Example source_detection_positions :
  let l := unroll [1%nat] source_detection in
  l !! 1%nat = Some (Obtain "butler" []) /\
  l !! 2%nat = Some (Request ButlerGet "butler" (Some "dataId") [] ["calexp"]) /\
  l !! 11%nat = Some (RunTask "charImageTask" ["calexp"] ["result"]) /\
  l !! 13%nat = Some (RunTask "sourceDetectionTask" ["calexp"] ["result"]) /\
  l !! 15%nat = Some (RunTask "sourceDeblendTask" ["calexp"; "sources"] []) /\
  l !! 16%nat = Some (RunTask "sourceMeasurementTask" ["sources"; "calexp"] []) /\
  l !! 20%nat = Some (Render ["sources"]) /\
  l !! 21%nat = Some (Render ["sources"]).
Proof. repeat split; reflexivity. Qed.




(** C5.  Every dictionary literal that a notebook passes to [butler.get]
    as data id has its keys among visit, detector, band, tract and
    patch; there are fifteen such literals, the coaddId built inside
    [cutout_coadd] counted at each call. *)
Theorem dataId_literals_use_allowed_keys :
  (forall nb keys k,
      In nb all_notebooks -> In keys (dataId_literals nb) -> In k keys ->
      In k dataId_keys) /\
  length (concat (map dataId_literals all_notebooks)) = 15%nat.
Proof.
  split; [|reflexivity].
  assert (H : forallb (fun nb =>
              forallb (fun keys =>
                forallb (fun k => bool_decide (k ∈ dataId_keys)) keys)
                (dataId_literals nb)) all_notebooks = true)
    by (vm_compute; reflexivity).
  intros nb keys k Hnb Hkeys Hk.
  rewrite forallb_forall in H. specialize (H nb Hnb).
  rewrite forallb_forall in H. specialize (H keys Hkeys).
  rewrite forallb_forall in H. specialize (H k Hk).
  apply bool_decide_eq_true in H. apply list_elem_of_In, H.
Qed.

(** The theorem at the data id of the source-detection notebook. *)
Lemma dataId_literals_use_allowed_keys_witness :
  In source_detection all_notebooks /\
  In ["visit"; "detector"] (dataId_literals source_detection) /\
  In "detector" ["visit"; "detector"] /\
  In "detector" dataId_keys.
Proof.
  assert (H1 : In source_detection all_notebooks)
    by (unfold all_notebooks; simpl; tauto).
  assert (H2 : In ["visit"; "detector"] (dataId_literals source_detection))
    by (left; reflexivity).
  assert (H3 : In "detector" ["visit"; "detector"]) by (simpl; tauto).
  repeat split; try assumption.
  exact (proj1 dataId_literals_use_allowed_keys source_detection
           ["visit"; "detector"] "detector" H1 H2 H3).
Defined.

(** The operations of a notebook that can change a service are among
    the given ones. *)
Ltac modifying_among allowed Hop Hm :=
  match type of Hop with
  | In ?op (remote_ops ?nb) =>
      let H := fresh "Hall" in
      assert (H : forallb (fun op => negb (modifies_service op)
                                     || bool_decide (op ∈ allowed))
                    (remote_ops nb) = true) by (vm_compute; reflexivity);
      rewrite forallb_forall in H; specialize (H _ Hop);
      rewrite Hm in H; simpl in H; try discriminate H;
      apply bool_decide_eq_true in H; apply list_elem_of_In in H
  end.






End NotebookFacts.

(* ===================================================================== *)
(** * Further properties of the helpers and cells                         *)
(* ===================================================================== *)

Section CallShapeFacts.
Import Py Helpers Cells.

(** No call selected by [P] is followed by another call, whatever the
    world answers. *)
Lemma ends_with_trace {S A} (P : string -> list (string * val) -> bool)
    (p : prog A) (w : world S) (s : S) :
  ends_with P p ->
  forallb (fun c => negb (P (callee c) (call_kwargs c)))
          (removelast (trace (run w p s))) = true.
Proof.
  intros Hp. revert s.
  induction Hp as [a|e|f args kwargs k Hf _ IH|f args kwargs k Hq]; intros s;
    try reflexivity; simpl.
  - destruct (w s f args kwargs) as [[v|e] s1]; [|reflexivity].
    specialize (IH v s1). destruct (run w (k v) s1) as [[o s2] tr1].
    unfold trace in *. simpl in *. destruct tr1 as [|c tr1]; [reflexivity|].
    simpl. rewrite Hf. simpl. exact IH.
  - destruct (w s f args kwargs) as [[v|e] s1]; [|reflexivity].
    specialize (Hq v). destruct (k v); try contradiction; reflexivity.
Qed.

(** X1.  When the image has three bands, [createRGB] does not look at
    its [bgr] argument: two calls that differ only in [bgr] make the same
    external calls and end alike. *)
Theorem createRGB_ignores_bgr_with_three_bands
    (S : Type) (w : world S) (s s1 : S) image bgr1 bgr2 stretch Q scale :
  w s "len" [image] [] = (Ok (VInt 3), s1) ->
  run w (ImageDisplay.createRGB image bgr1 stretch Q scale) s
  = run w (ImageDisplay.createRGB image bgr2 stretch Q scale) s.
Proof.
  intros H. unfold ImageDisplay.createRGB. cbn [bind call run].
  rewrite H. reflexivity.
Qed.

Lemma createRGB_ignores_bgr_with_three_bands_witness :
  run three_bands
    (ImageDisplay.createRGB (VObj 1) (VStr "gri") (VInt 1) (VInt 10) VNone) tt
  = run three_bands
      (ImageDisplay.createRGB (VObj 1) (VList [VStr "i"; VStr "r"; VStr "g"])
         (VInt 1) (VInt 10) VNone) tt.
Proof.
  apply (createRGB_ignores_bgr_with_three_bands unit three_bands tt tt).
  reflexivity.
Defined.

(** X2.  On an image that does not have three bands, a [bgr] with fewer
    than three entries makes [createRGB] raise IndexError at [bgr[2]],
    right after [len(image)]: no band is read and [make_lupton_rgb] is
    not called. *)
Theorem createRGB_short_bgr_raises
    (S : Type) (w : world S) (s s1 : S) image n bgr stretch Q scale :
  w s "len" [image] [] = (Ok n, s1) ->
  eq_int n 3 = false ->
  (exists b, bgr = VStr b /\ (String.length b < 3)%nat) \/
  (exists l, bgr = VList l /\ (length l < 3)%nat) ->
  run w (ImageDisplay.createRGB image bgr stretch Q scale) s
  = (Raised IndexError, s1, [mkCall "len" [image] [] (Ok n)]).
Proof.
  intros H Hn Hb. unfold ImageDisplay.createRGB. cbn [bind call run].
  rewrite H, Hn.
  assert (Hg : py_getitem bgr 2 = Raise IndexError).
  { destruct Hb as [(b & -> & Hl)|(l & -> & Hl)]; unfold py_getitem;
      change (2 <? 0) with false; cbv iota;
      match goal with
      | |- context [2 <? ?b] => destruct (Z.ltb_spec 2 b); [lia|]
      end; rewrite andb_false_r; reflexivity. }
  unfold ImageDisplay.band_array.
  destruct (is_none scale); cbn [bind]; rewrite Hg; reflexivity.
Qed.

Lemma createRGB_short_bgr_raises_witness :
  run quiet_example
    (ImageDisplay.createRGB (VObj 1) (VStr "gr") (VInt 1) (VInt 10) VNone) tt
  = (Raised IndexError, tt, [mkCall "len" [VObj 1] [] (Ok (VObj 0))]).
Proof.
  apply (createRGB_short_bgr_raises unit quiet_example tt tt).
  - reflexivity.
  - reflexivity.
  - left. exists "gr". split; [reflexivity|]. simpl. lia.
Defined.

(** X3.  With a scale, the factors are given in red, green, blue order
    while [bgr] is in blue, green, red order: the red channel is band
    [bgr[2]] times [scale[0]], the green one [bgr[1]] times [scale[1]],
    the blue one [bgr[0]] times [scale[2]], and these three products are
    what [make_lupton_rgb] receives. *)
Theorem createRGB_scale_pairs_channels
    (S : Type) (w : world S) (s s' : S) image b g r s0 s1 s2 stretch Q v tr :
  (forall n st, w s "len" [image] [] = (Ok n, st) -> eq_int n 3 = false) ->
  run w (ImageDisplay.createRGB image (VList [b; g; r]) stretch Q
           (VList [s0; s1; s2])) s = (Ok v, s', tr) ->
  exists n pr ar r_im pg ag g_im pb ab b_im,
    tr = [ mkCall "len" [image] [] (Ok n);
           mkCall "__getitem__" [image; r] [] (Ok pr);
           mkCall ".array" [pr] [] (Ok ar);
           mkCall "__mul__" [ar; s0] [] (Ok r_im);
           mkCall "__getitem__" [image; g] [] (Ok pg);
           mkCall ".array" [pg] [] (Ok ag);
           mkCall "__mul__" [ag; s1] [] (Ok g_im);
           mkCall "__getitem__" [image; b] [] (Ok pb);
           mkCall ".array" [pb] [] (Ok ab);
           mkCall "__mul__" [ab; s2] [] (Ok b_im);
           mkCall "make_lupton_rgb" []
             [("image_r", r_im); ("image_g", g_im); ("image_b", b_im);
              ("stretch", stretch); ("Q", Q)] (Ok v) ].
Proof.
  intros Hlen H. unfold ImageDisplay.createRGB in H.
  cbn [bind call] in H. step_ok H. rewrite (Hlen _ _ Hw) in H.
  unfold ImageDisplay.band_array, ImageDisplay.rescaled in H.
  cbn -[run] in H. repeat step_ok H. repeat eexists.
Qed.

Lemma createRGB_scale_pairs_channels_witness :
  exists n pr ar r_im pg ag g_im pb ab b_im,
    trace (run quiet_example
             (ImageDisplay.createRGB (VObj 1)
                (VList [VStr "g"; VStr "r"; VStr "i"]) (VInt 1) (VInt 10)
                (VList [VFloat "0.6"; VFloat "0.7"; VFloat "1.0"])) tt)
    = [ mkCall "len" [VObj 1] [] (Ok n);
        mkCall "__getitem__" [VObj 1; VStr "i"] [] (Ok pr);
        mkCall ".array" [pr] [] (Ok ar);
        mkCall "__mul__" [ar; VFloat "0.6"] [] (Ok r_im);
        mkCall "__getitem__" [VObj 1; VStr "r"] [] (Ok pg);
        mkCall ".array" [pg] [] (Ok ag);
        mkCall "__mul__" [ag; VFloat "0.7"] [] (Ok g_im);
        mkCall "__getitem__" [VObj 1; VStr "g"] [] (Ok pb);
        mkCall ".array" [pb] [] (Ok ab);
        mkCall "__mul__" [ab; VFloat "1.0"] [] (Ok b_im);
        mkCall "make_lupton_rgb" []
          [("image_r", r_im); ("image_g", g_im); ("image_b", b_im);
           ("stretch", VInt 1); ("Q", VInt 10)] (Ok (VObj 0)) ].
Proof.
  assert (Hlen : forall (n : val) (st : unit),
             quiet_example tt "len" [VObj 1] [] = (Ok n, st) ->
             eq_int n 3 = false)
    by (intros n st E; injection E as <- _; reflexivity).
  exact (createRGB_scale_pairs_channels unit quiet_example tt tt (VObj 1)
           (VStr "g") (VStr "r") (VStr "i")
           (VFloat "0.6") (VFloat "0.7") (VFloat "1.0") (VInt 1) (VInt 10)
           (VObj 0) _ Hlen eq_refl).
Defined.

(** X4.  [cutout_coadd] reads the skyMap from the Butler only when no
    skymap is passed: a run that returns made the Butler calls
    [get("skyMap")] and [get(datasetType, ...)] when [skymap] is None,
    and the single call [get(datasetType, ...)] otherwise. *)
Theorem cutout_coadd_reads_skymap_only_when_missing
    (S : Type) (w : world S) (s s' : S)
    butler ra dec band datasetType skymap cutoutSideLength v tr :
  run w (ImageDisplay.cutout_coadd butler ra dec band datasetType skymap
           cutoutSideLength) s = (Ok v, s', tr) ->
  map call_args (calls_named "get" tr)
  = if is_none skymap
    then [[butler; VStr "skyMap"]; [butler; datasetType]]
    else [[butler; datasetType]].
Proof.
  intros H. unfold ImageDisplay.cutout_coadd in H.
  destruct skymap; cbn [bind call method attr is_none] in H;
    repeat step_ok H; reflexivity.
Qed.

Lemma cutout_coadd_reads_skymap_only_when_missing_witness :
  map call_args
    (calls_named "get"
       (trace (run quiet_example
                 (ImageDisplay.cutout_coadd (VObj 1) (VFloat "55.064")
                    (VFloat "-29.783") band_default datasetType_default
                    (VObj 4) (VInt 201)) tt)))
  = [[VObj 1; datasetType_default]].
Proof.
  apply (cutout_coadd_reads_skymap_only_when_missing unit quiet_example tt tt
           (VObj 1) (VFloat "55.064") (VFloat "-29.783") band_default
           datasetType_default (VObj 4) (VInt 201) (VObj 0)).
  reflexivity.
Defined.

(** X5.  Whatever the external calls answer, exceptions included,
    [cutout_coadd] asks the Butler for the coadd at most once and as its
    very last call: when a lookup fails no coadd is requested, and
    nothing is called after the request. *)
Theorem cutout_coadd_requests_coadd_last
    (S : Type) (w : world S) (s : S)
    butler ra dec band datasetType skymap cutoutSideLength :
  forallb (fun c => negb (coadd_request (callee c) (call_kwargs c)))
    (removelast
       (trace (run w (ImageDisplay.cutout_coadd butler ra dec band
                        datasetType skymap cutoutSideLength) s))) = true.
Proof.
  apply ends_with_trace. unfold ImageDisplay.cutout_coadd.
  destruct skymap; cbn [bind call method attr is_none];
    repeat first [ apply ew_call; [reflexivity|intros ?]
                 | apply ew_last; intros ?; exact I ].
Qed.

End CallShapeFacts.

Section CellFacts.
Import Py Helpers Tap Cells.

Lemma eq_int_true v n : eq_int v n = true -> v = VInt n.
Proof.
  destruct v; try discriminate. simpl. intros H.
  apply Z.eqb_eq in H. congruence.
Qed.

Lemma eq_str_true v t : eq_str v t = true -> v = VStr t.
Proof.
  destruct v; try discriminate. simpl. intros H.
  apply String.eqb_eq in H. congruence.
Qed.

(** After a call selected by [P] was answered, the run returns. *)
Lemma closes_with_trace {S A} (P : string -> list (string * val) -> bool)
    (p : prog A) (w : world S) (s : S) :
  closes_with P p ->
  forall c v, In c (trace (run w p s)) ->
    P (callee c) (call_kwargs c) = true -> response c = Ok v ->
    exists a, result (run w p s) = Ok a.
Proof.
  intros Hp. revert s.
  induction Hp as [a|e|f args kwargs k Hf _ IH|f args kwargs k Hq];
    intros s c v; simpl; try contradiction.
  - destruct (w s f args kwargs) as [[v0|e] s1].
    + specialize (IH v0 s1 c v).
      destruct (run w (k v0) s1) as [[o s2] tr1].
      unfold trace, result in *. simpl in *.
      intros [<-|Hin] HP Hr; [simpl in HP; congruence|]. auto.
    + unfold trace. simpl. intros [<-|[]] HP. simpl in HP. congruence.
  - destruct (w s f args kwargs) as [[v0|e] s1].
    + destruct (Hq v0) as [a ->]. unfold result. simpl. eauto.
    + unfold trace. simpl. intros [<-|[]] _ Hr. discriminate Hr.
Qed.

(** X6.  In section 4 of the TAP notebook [job.delete()] is the last
    thing that happens: whatever the service answers, no call follows a
    deletion; once a deletion was answered the run returns, so a run
    ended by an exception or by a failed [assert] has not deleted the
    job; and a run that returns began by submitting the job and ends
    with the deletion of the job that [submit_job] returned. *)
Theorem async_section_deletes_job_last
    (S : Type) (w : world S) (s : S) service query results :
  let r := run w (async_section service query results) s in
  forallb (fun c => negb (named "delete" (callee c) (call_kwargs c)))
          (removelast (trace r)) = true /\
  (forall c v e,
      In c (trace r) -> callee c = "delete" -> response c = Ok v ->
      result r <> Raised e) /\
  (result r = Ok tt ->
   exists job v,
     head (trace r) = Some (mkCall "submit_job" [service; query] [] (Ok job)) /\
     last (trace r) = Some (mkCall "delete" [job] [] (Ok v))).
Proof.
  intros r. split; [|split].
  - apply ends_with_trace.
    unfold async_section, cell_submit, cell_run, cell_wait,
      cell_raise_if_error, cell_fetch, cell_retrieve, cell_delete, to_pandas,
      TapQueries.sort_dataframe.
    cbn [bind call method attr].
    repeat first
      [ apply ew_call; [reflexivity|intros ?]
      | apply ew_last; intros ?; exact I
      | apply ew_raise
      | match goal with
        | |- context [py_assert ?b] => destruct b; cbn [py_assert bind]
        end ].
  - intros c v e Hin Hc Hr Hres.
    assert (Hcl : closes_with (named "delete")
                    (async_section service query results)).
    { unfold async_section, cell_submit, cell_run, cell_wait,
        cell_raise_if_error, cell_fetch, cell_retrieve, cell_delete,
        to_pandas, TapQueries.sort_dataframe.
      cbn [bind call method attr].
      repeat first
        [ apply cw_call; [reflexivity|intros ?]
        | apply cw_last; intros ?; eexists; reflexivity
        | apply cw_raise
        | match goal with
          | |- context [py_assert ?b] => destruct b; cbn [py_assert bind]
          end ]. }
    destruct (closes_with_trace _ _ w s Hcl c v Hin) as [a Ha];
      [unfold named; rewrite Hc; reflexivity | exact Hr |].
    fold r in Ha. rewrite Ha in Hres. discriminate Hres.
  - subst r. destruct (run w (async_section service query results) s)
      as [[o s'] tr] eqn:H.
    unfold result, trace. simpl. intros ->.
    unfold async_section, cell_submit, cell_run, cell_wait,
      cell_raise_if_error, cell_fetch, cell_retrieve, cell_delete, to_pandas,
      TapQueries.sort_dataframe in H.
    cbn [bind call method attr] in H.
    repeat first [step_ok H | pass_assert H].
    do 2 eexists. split; reflexivity.
Qed.

Lemma async_section_deletes_job_last_witness :
  exists job v,
    last (trace (run tap_service
                   (async_section (VObj 100) (VStr "SELECT") (VObj 50))
                   no_jobs))
    = Some (mkCall "delete" [job] [] (Ok v)).
Proof.
  destruct (proj2 (proj2 (async_section_deletes_job_last service_state
                            tap_service no_jobs (VObj 100) (VStr "SELECT")
                            (VObj 50)))
              ltac:(vm_compute; reflexivity)) as (job & v & _ & E).
  exists job, v. exact E.
Defined.

End CellFacts.

Section CheckFacts.
Import Py Helpers Tap Cells.

(** X7.  The first cell of the TAP notebook hands on a service only
    after its two checks: when it returns, the service is not None and
    its [baseurl] was read as "https://data.lsst.cloud/api/tap"; these
    two are the only calls made. *)
Theorem cell_get_service_checked
    (S : Type) (w : world S) (s s' : S) service tr :
  run w cell_get_service s = (Ok service, s', tr) ->
  service <> VNone /\
  tr = [ mkCall "get_tap_service" [] [] (Ok service);
         mkCall ".baseurl" [service] []
           (Ok (VStr "https://data.lsst.cloud/api/tap")) ].
Proof.
  intros H. unfold cell_get_service in H. cbn [bind call method attr] in H.
  repeat first [step_ok H | pass_assert H].
  apply eq_str_true in Hassert0. subst. split; [|reflexivity].
  intros ->. discriminate Hassert.
Qed.

Lemma cell_get_service_checked_witness :
  VObj 0 <> VNone /\
  trace (run rsp_tap cell_get_service tt)
  = [ mkCall "get_tap_service" [] [] (Ok (VObj 0));
      mkCall ".baseurl" [VObj 0] []
        (Ok (VStr "https://data.lsst.cloud/api/tap")) ].
Proof.
  exact (cell_get_service_checked unit rsp_tap tt tt (VObj 0) _ eq_refl).
Defined.

(** X8.  A counting cell of sections 2.2 and 2.3 returns its table only
    when the table has the expected number of rows: the last thing a
    returning run did was to read [len(results)] as that number, after
    the search and the two conversions. *)
Theorem cell_search_count_checked
    (S : Type) (w : world S) (s s' : S) service query expected results tr :
  run w (cell_search_count service query expected) s = (Ok results, s', tr) ->
  exists r t,
    tr = [ mkCall "search" [service; query] [] (Ok r);
           mkCall "to_table" [r] [] (Ok t);
           mkCall "to_pandas" [t] [] (Ok results);
           mkCall "len" [results] [] (Ok (VInt expected)) ].
Proof.
  intros H. unfold cell_search_count, to_pandas in H.
  cbn [bind call method attr] in H.
  repeat first [step_ok H | pass_assert H].
  apply eq_int_true in Hassert. subst. do 2 eexists. reflexivity.
Qed.

Lemma cell_search_count_checked_witness :
  exists r t,
    trace (run rsp_tap (cell_search_count (VObj 1) (VStr "SELECT") 15670) tt)
    = [ mkCall "search" [VObj 1; VStr "SELECT"] [] (Ok r);
        mkCall "to_table" [r] [] (Ok t);
        mkCall "to_pandas" [t] [] (Ok (VObj 0));
        mkCall "len" [VObj 0] [] (Ok (VInt 15670)) ].
Proof.
  exact (cell_search_count_checked unit rsp_tap tt tt (VObj 1) (VStr "SELECT")
           15670 (VObj 0) _ eq_refl).
Defined.

End CheckFacts.

Section LoopFacts.
Import Py Helpers Cells.

Context {S : Type} (w : world S).

Lemma calls_named_app name tr1 tr2 :
  calls_named name (tr1 ++ tr2) = calls_named name tr1 ++ calls_named name tr2.
Proof. apply List.filter_app. Qed.

(** Iterating over a list makes no call; over an external iterable, one
    call of [iter]. *)
Lemma py_iter_ok v s l s' tr :
  run w (py_iter v) s = (Ok l, s', tr) ->
  (v = VList l /\ tr = []) \/ tr = [mkCall "iter" [v] [] (Ok (VList l))].
Proof.
  intros H. destruct v; try discriminate H.
  - left. apply run_Ret_ok in H. destruct H as (-> & _ & ->). auto.
  - right. cbn [py_iter bind call] in H. step_ok H.
    destruct v; try discriminate H. step_ok H. reflexivity.
Qed.

Lemma remove_each_trace images s s' tr :
  run w (for_each images (fun im => method im "remove" [] [] ;;; Ret tt)) s
  = (Ok tt, s', tr) ->
  map callee tr = map (fun _ => "remove") images /\
  map call_args tr = map (fun im => [im]) images.
Proof.
  revert s tr. induction images as [|im images IH]; intros s tr H.
  - apply run_Ret_ok in H. destruct H as (_ & _ & ->). auto.
  - cbn [for_each bind method call] in H. step_ok H.
    destruct (IH _ _ H) as [E1 E2]. simpl. rewrite E1, E2. auto.
Qed.

Lemma calls_named_const {A} name n (xs : list A) tr :
  map callee tr = map (fun _ => n) xs ->
  calls_named name tr = if String.eqb n name then tr else [].
Proof.
  revert xs. induction tr as [|c tr IH]; intros [|x xs] E; try discriminate E.
  - destruct (String.eqb n name); reflexivity.
  - simpl in E. injection E as Ec E. unfold calls_named in *. simpl.
    rewrite Ec, (IH xs E). destruct (String.eqb n name); reflexivity.
Qed.

(** The loop over the axes, when axes and images come as Python lists:
    every axis is asked for its images, and every image is removed. *)
Lemma remove_loop_trace axes s s' tr :
  run w (for_each axes (fun ax =>
           images <- method ax "get_images" [] [] ;;
           images <- py_iter images ;;
           for_each images (fun im => method im "remove" [] [] ;;; Ret tt))) s
  = (Ok tt, s', tr) ->
  calls_named "iter" tr = [] ->
  calls_named "get_axes" tr = [] /\
  map call_args (calls_named "get_images" tr) = map (fun ax => [ax]) axes /\
  map call_args (calls_named "remove" tr)
  = map (fun im => [im]) (flat_map returned_items (calls_named "get_images" tr)).
Proof.
  revert s tr. induction axes as [|ax axes IH]; intros s tr H Hiter.
  - apply run_Ret_ok in H. destruct H as (_ & _ & ->). auto.
  - cbn [for_each bind method call] in H. step_ok H.
    apply run_bind_ok in H. destruct H as (u & s1 & tr1 & tr2 & H1 & H2 & ->). destruct u.
    apply run_bind_ok in H1. destruct H1 as (l & s2 & tr3 & tr4 & Hi & Hl & ->).
    apply py_iter_ok in Hi. destruct Hi as [[-> ->]| ->]; [|discriminate Hiter].
    apply remove_each_trace in Hl. destruct Hl as [Hc Ha].
    change (calls_named "iter" (tr4 ++ tr2) = []) in Hiter.
    rewrite calls_named_app in Hiter. apply app_eq_nil in Hiter as [_ Hiter].
    destruct (IH _ _ H2 Hiter) as (E1 & E2 & E3).
    change (calls_named "get_axes" (tr4 ++ tr2) = [] /\
            [ax] :: map call_args (calls_named "get_images" (tr4 ++ tr2))
            = [ax] :: map (fun ax => [ax]) axes /\
            map call_args (calls_named "remove" (tr4 ++ tr2))
            = map (fun im => [im])
                (l ++ flat_map returned_items
                        (calls_named "get_images" (tr4 ++ tr2)))).
    rewrite !calls_named_app, !(calls_named_const _ _ _ _ Hc). simpl.
    rewrite !map_app, Ha, E3, E2. auto.
Qed.

(** The loop calls nothing but [get_images], [iter] and [remove]. *)
Lemma remove_loop_calls axes s s' tr :
  run w (for_each axes (fun ax =>
           images <- method ax "get_images" [] [] ;;
           images <- py_iter images ;;
           for_each images (fun im => method im "remove" [] [] ;;; Ret tt))) s
  = (Ok tt, s', tr) ->
  forallb (fun c => existsb (String.eqb (callee c))
                      ["get_axes"; "iter"; "get_images"; "remove"]) tr = true.
Proof.
  revert s tr. induction axes as [|ax axes IH]; intros s tr H.
  - apply run_Ret_ok in H. destruct H as (_ & _ & ->). reflexivity.
  - cbn [for_each bind method call] in H. step_ok H.
    apply run_bind_ok in H. destruct H as (u & s1 & tr1 & tr2 & H1 & H2 & ->). destruct u.
    apply run_bind_ok in H1. destruct H1 as (l & s2 & tr3 & tr4 & Hi & Hl & ->).
    apply remove_each_trace in Hl. destruct Hl as [Hc _].
    specialize (IH _ _ H2).
    remember (fun c : call_record => existsb (String.eqb (callee c))
                ["get_axes"; "iter"; "get_images"; "remove"]) as P eqn:HP.
    simpl. rewrite !forallb_app, IH, andb_true_r.
    repeat (apply andb_true_intro; split).
    + rewrite HP. reflexivity.
    + apply py_iter_ok in Hi. destruct Hi as [[_ ->]| ->];
        [|rewrite HP]; reflexivity.
    + clear -Hc HP. revert l Hc. induction tr4 as [|c tr4 IH']; intros [|x l] Hc;
        try discriminate Hc; [reflexivity|].
      simpl in Hc. injection Hc as Hc1 Hc. simpl. rewrite (IH' _ Hc), andb_true_r.
      rewrite HP, Hc1. reflexivity.
Qed.

End LoopFacts.

Section FigureFacts.
Import Py Helpers Cells.

(** X9.  A call of [remove_figure] that returns has cleared and closed
    the figure and collected garbage, in this order and as its last three
    calls, after every image was dealt with; it returns None. *)
Theorem remove_figure_closes_figure_last
    (S : Type) (w : world S) (s s' : S) fig v tr :
  run w (ImageDisplay.remove_figure fig) s = (Ok v, s', tr) ->
  v = VNone /\
  exists tr0 a b c,
    tr = tr0 ++ [ mkCall "clf" [fig] [] (Ok a);
                  mkCall "plt.close" [fig] [] (Ok b);
                  mkCall "gc.collect" [] [] (Ok c) ] /\
    forallb (fun c => existsb (String.eqb (callee c))
                        ["get_axes"; "iter"; "get_images"; "remove"]) tr0 = true.
Proof.
  intros H. unfold ImageDisplay.remove_figure in H.
  cbn [bind method call] in H. step_ok H.
  apply run_bind_ok in H. destruct H as (axes & s1 & tr1 & tr2 & Hi & H & ->).
  apply run_bind_ok in H. destruct H as (u & s2 & tr3 & tr4 & Hl & H & ->). destruct u.
  repeat step_ok H. split; [reflexivity|].
  eexists (_ :: tr1 ++ tr3), _, _, _. split.
  - simpl. rewrite <- app_assoc. reflexivity.
  - pose proof (remove_loop_calls _ _ _ _ _ Hl) as Hloop.
    remember (fun c : call_record => existsb (String.eqb (callee c))
                ["get_axes"; "iter"; "get_images"; "remove"]) as P eqn:HP.
    simpl. rewrite forallb_app, Hloop, andb_true_r.
    apply andb_true_intro. split; [rewrite HP; reflexivity|].
    apply py_iter_ok in Hi. destruct Hi as [[_ ->]| ->];
      [|rewrite HP]; reflexivity.
Qed.

(** X10.  When the figure's axes and their images come as Python lists,
    a call of [remove_figure] that returns has asked every axis of the
    figure for its images, once and in order, and has removed every
    image that was listed, once and in order. *)
Theorem remove_figure_removes_every_image
    (S : Type) (w : world S) (s s' : S) fig v tr :
  run w (ImageDisplay.remove_figure fig) s = (Ok v, s', tr) ->
  calls_named "iter" tr = [] ->
  exists axes,
    calls_named "get_axes" tr = [mkCall "get_axes" [fig] [] (Ok (VList axes))] /\
    map call_args (calls_named "get_images" tr) = map (fun ax => [ax]) axes /\
    map call_args (calls_named "remove" tr)
    = map (fun im => [im])
        (flat_map returned_items (calls_named "get_images" tr)).
Proof.
  intros H Hiter. unfold ImageDisplay.remove_figure in H.
  cbn [bind method call] in H. step_ok H.
  apply run_bind_ok in H. destruct H as (axes & s1 & tr1 & tr2 & Hi & H & ->).
  apply run_bind_ok in H. destruct H as (u & s2 & tr3 & tr4 & Hl & H & ->).
  destruct u. repeat step_ok H.
  apply py_iter_ok in Hi. destruct Hi as [[-> ->]| ->]; [|discriminate Hiter].
  assert (Hiter3 : calls_named "iter" tr3 = []).
  { unfold calls_named in *. simpl in Hiter. rewrite List.filter_app in Hiter.
    apply app_eq_nil in Hiter as [Hiter _]. exact Hiter. }
  destruct (remove_loop_trace _ _ _ _ _ Hl Hiter3) as (E1 & E2 & E3).
  exists axes. unfold calls_named in *. simpl. rewrite !List.filter_app. simpl.
  rewrite !app_nil_r, E1. auto.
Qed.

Lemma remove_figure_closes_figure_last_witness :
  exists tr0 a b c,
    trace (run two_axes (ImageDisplay.remove_figure (VObj 7)) tt)
    = tr0 ++ [ mkCall "clf" [VObj 7] [] (Ok a);
               mkCall "plt.close" [VObj 7] [] (Ok b);
               mkCall "gc.collect" [] [] (Ok c) ] /\
    forallb (fun c => existsb (String.eqb (callee c))
                        ["get_axes"; "iter"; "get_images"; "remove"]) tr0 = true.
Proof.
  exact (proj2 (remove_figure_closes_figure_last unit two_axes tt tt (VObj 7) VNone _
                  eq_refl)).
Defined.

Lemma remove_figure_removes_every_image_witness :
  map call_args
    (calls_named "remove"
       (trace (run two_axes (ImageDisplay.remove_figure (VObj 7)) tt)))
  = [[VObj 11]; [VObj 12]].
Proof.
  destruct (remove_figure_removes_every_image unit two_axes tt tt (VObj 7) VNone _
              eq_refl eq_refl) as (axes & _ & _ & E).
  exact E.
Defined.

End FigureFacts.

Section TitleFacts.
Import Py Helpers Cells.

Lemma append_assoc_text (a b c : string) : (a +:+ b) +:+ c = a +:+ b +:+ c.
Proof.
  induction a as [|x a IH]; [reflexivity|].
  change (String x ((a +:+ b) +:+ c) = String x (a +:+ b +:+ c)).
  f_equal. exact IH.
Qed.

Lemma append_empty_text (a : string) : a +:+ "" = a.
Proof.
  induction a as [|x a IH]; [reflexivity|].
  change (String x (a +:+ "") = String x a). f_equal. exact IH.
Qed.

Lemma py_str_scalar v : scalar v = true -> py_str v = Ret (scalar_text v).
Proof. destruct v as [| [|] | | | | | |]; try discriminate; reflexivity. Qed.

Lemma dataIdToString_loop_text {S} (w : world S) s items title :
  forallb (fun kv => scalar (snd kv)) items = true ->
  run w (HoloViz.dataIdToString_loop title items) s
  = (Ok (title +:+ items_text items), s, []).
Proof.
  revert title. induction items as [|[k v] items IH]; intros title Hs.
  - cbn [HoloViz.dataIdToString_loop items_text foldr run].
    rewrite append_empty_text. reflexivity.
  - simpl in Hs. apply andb_true_iff in Hs as [Hv Hs].
    cbn [HoloViz.dataIdToString_loop]. rewrite (py_str_scalar v Hv).
    cbn [bind]. rewrite (IH _ Hs). do 3 f_equal.
    cbn [items_text foldr fst snd]. fold (items_text items).
    rewrite !append_assoc_text. reflexivity.
Qed.

Lemma plain_value_scalar v : plain_value v = true -> scalar v = true.
Proof. destruct v; try discriminate; reflexivity. Qed.

(** X11.  For a data id whose keys and string values are ASCII text and
    whose other values are integers, booleans or None,
    [dataIdToString] returns "DC2 image: " followed by "key: value " for
    every item in the dictionary's order, with the white space at both
    ends removed; it calls nothing. *)
Theorem dataIdToString_text
    (S : Type) (w : world S) (s : S) (dataId : list (string * val)) :
  forallb (fun kv => ascii_text (fst kv) && plain_value (snd kv)) dataId
  = true ->
  run w (HoloViz.dataIdToString dataId) s
  = (Ok (VStr (strip ("DC2 image: " +:+ items_text dataId))), s, []).
Proof.
  intros Hs. unfold HoloViz.dataIdToString. rewrite run_bind.
  rewrite (dataIdToString_loop_text w s dataId); [reflexivity|].
  rewrite forallb_forall in *. intros kv Hkv.
  specialize (Hs kv Hkv). apply andb_true_iff in Hs as [_ Hs].
  apply plain_value_scalar, Hs.
Qed.

Lemma dataIdToString_text_witness :
  run quiet_example (HoloViz.dataIdToString HoloViz.coaddId) tt
  = (Ok (VStr "DC2 image: tract: 4226 patch: 17 band: r"), tt, []).
Proof.
  apply (dataIdToString_text unit quiet_example tt HoloViz.coaddId).
  reflexivity.
Defined.

End TitleFacts.

Section CutoutCellFacts.
Import Py Helpers Cells.

(** X12.  The cell that builds the multi-band exposure asks the Butler
    for three coadds, of bands g, r and i in this order, each after
    reading the skyMap again, and hands the three images to
    [MultibandExposure.fromExposures] in the order of the band names
    ['g', 'r', 'i'] it passes with them. *)
Theorem cell_rgb_cutouts_band_order
    (S : Type) (w : world S) (s s' : S) butler ra dec v tr :
  run w (cell_rgb_cutouts butler ra dec) s = (Ok v, s', tr) ->
  exists g r i,
    map (fun c => (dataId_band c, response c))
        (List.filter (fun c => coadd_request (callee c) (call_kwargs c)) tr)
    = [ (Some (VStr "g"), Ok g); (Some (VStr "r"), Ok r);
        (Some (VStr "i"), Ok i) ] /\
    map call_args (calls_named "get" tr)
    = [ [butler; VStr "skyMap"]; [butler; VStr "deepCoadd"];
        [butler; VStr "skyMap"]; [butler; VStr "deepCoadd"];
        [butler; VStr "skyMap"]; [butler; VStr "deepCoadd"] ] /\
    last tr = Some (mkCall "MultibandExposure.fromExposures"
                      [VList [VStr "g"; VStr "r"; VStr "i"]; VList [g; r; i]]
                      [] (Ok v)).
Proof.
  intros H. unfold cell_rgb_cutouts, ImageDisplay.cutout_coadd, skymap_default in H.
  cbn [bind call method attr is_none] in H.
  repeat step_ok H. do 3 eexists. repeat split; reflexivity.
Qed.

Lemma cell_rgb_cutouts_band_order_witness :
  exists g r i,
    last (trace (run quiet_example
                   (cell_rgb_cutouts (VObj 1) (VFloat "55.064")
                      (VFloat "-29.783")) tt))
    = Some (mkCall "MultibandExposure.fromExposures"
              [VList [VStr "g"; VStr "r"; VStr "i"]; VList [g; r; i]]
              [] (Ok (VObj 0))).
Proof.
  destruct (cell_rgb_cutouts_band_order unit quiet_example tt tt (VObj 1)
              (VFloat "55.064") (VFloat "-29.783") (VObj 0) _ eq_refl)
    as (g & r & i & _ & _ & E).
  exists g, r, i. exact E.
Defined.

End CutoutCellFacts.

Section CanonicalFacts.
Import Py Pandas Cells.

(** New labels depend on the cells only. *)
Lemma with_labels_cells_ext (keys : list Z) (l1 l2 : list row) :
  map cells l1 = map cells l2 -> with_labels keys l1 = with_labels keys l2.
Proof.
  revert l1 l2. induction keys as [|k keys IH]; intros [|r1 l1] [|r2 l2] E;
    try discriminate E; try reflexivity.
  simpl in E. injection E as E1 E. unfold with_labels in *. simpl.
  rewrite E1. f_equal. apply IH, E.
Qed.

(** Rows with their labels set to zero. *)
Lemma unlabelled_cells (l : list row) :
  map cells (map (fun r : row => (0, cells r)) l) = map cells l.
Proof. rewrite map_map. reflexivity. Qed.

Lemma unlabelled_perm (l1 l2 : list row) :
  Permutation (map cells l1) (map cells l2) ->
  Permutation (map (fun r : row => (0, cells r)) l1)
              (map (fun r : row => (0, cells r)) l2).
Proof.
  intros H. apply (Permutation_map (fun c : list Z => (0, c))) in H.
  rewrite !map_map in H. exact H.
Qed.



End CanonicalFacts.

Section CutoutBoxFacts.
Import Geom Cells.

(** X14.  For a target pixel and a positive width and height below
    2^30 in size, every number of the cell fits in the library's [int],
    and the box the source-detection cell builds with two [include]
    calls covers width+1 by height+1 pixels and contains the target;
    when width and height are even the target is its exact centre.  The
    box of the commented-out alternative covers width by height pixels,
    and for even sizes the target has one pixel more on its low side
    than on its high side. *)
Theorem cutout_bbox_at_centred (x y w h : Z) :
  - 2 ^ 30 <= x < 2 ^ 30 -> - 2 ^ 30 <= y < 2 ^ 30 ->
  0 < w < 2 ^ 30 -> 0 < h < 2 ^ 30 ->
  let b := cutout_bbox_at x y w h in
  let a := cutout_bbox_alternative_at x y w h in
  (box_fits b /\ box_fits a /\
   fits_int (x - w `div` 2 + w) /\ fits_int (y - h `div` 2 + h)) /\
  getWidth b = w + 1 /\ getHeight b = h + 1 /\
  contains b (mkPoint2I x y) = true /\
  getWidth a = w /\ getHeight a = h /\
  contains a (mkPoint2I x y) = true /\
  (Z.even w = true ->
   px (getMax b) - x = x - px (getMin b) /\
   px (getMax a) - x = x - px (getMin a) - 1) /\
  (Z.even h = true ->
   py (getMax b) - y = y - py (getMin b) /\
   py (getMax a) - y = y - py (getMin a) - 1).
Proof.
  intros Hx Hy Hw Hh. unfold cutout_bbox_at, cutout_bbox_alternative_at.
  cbv zeta.
  rewrite bbox_by_include_shape, bbox_by_extent_shape by lia.
  unfold box_fits, fits_int, int_min, int_max, contains, isEmpty, getMax,
    getMin, getWidth, getHeight.
  cbn [px py ex ey minimum dimensions].
  change (2 ^ 31) with 2147483648. change (2 ^ 30) with 1073741824 in *.
  assert (Hw2 : 0 <= w `div` 2 /\ 2 * (w `div` 2) <= w /\ w < 2 * (w `div` 2) + 2)
    by (clear -Hw; Z.div_mod_to_equations; lia).
  assert (Hh2 : 0 <= h `div` 2 /\ 2 * (h `div` 2) <= h /\ h < 2 * (h `div` 2) + 2)
    by (clear -Hh; Z.div_mod_to_equations; lia).
  repeat split; try lia.
  - apply Z.even_spec in H. destruct H as [k ->].
    clear Hh2. Z.div_mod_to_equations. lia.
  - apply Z.even_spec in H. destruct H as [k ->].
    clear Hh2. Z.div_mod_to_equations. lia.
  - apply Z.even_spec in H. destruct H as [k ->].
    clear Hw2. Z.div_mod_to_equations. lia.
  - apply Z.even_spec in H. destruct H as [k ->].
    clear Hw2. Z.div_mod_to_equations. lia.
Qed.

Lemma cutout_bbox_at_centred_witness :
  getWidth (cutout_bbox_at 1700 2100 400 400) = 401 /\
  contains (cutout_bbox_at 1700 2100 400 400) (mkPoint2I 1700 2100) = true.
Proof.
  destruct (cutout_bbox_at_centred 1700 2100 400 400
              ltac:(lia) ltac:(lia) ltac:(lia) ltac:(lia))
    as (_ & E1 & _ & E2 & _).
  split; [exact E1|exact E2].
Defined.

End CutoutBoxFacts.

Section BreakLoopFacts.
Import Py Helpers Cells.

Lemma visited_break (limit i : Z) : limit < i -> visited limit i = 1%nat.
Proof. unfold visited. lia. Qed.

Lemma visited_continue (limit i : Z) :
  i <= limit -> visited limit i = Datatypes.S (visited limit (i + 1)).
Proof. unfold visited. lia. Qed.

Lemma print_refs_trace {S} (w : world S) limit i refs s (u : unit) s' tr :
  run w (enumerate_break limit (fun ref => call "print" [ref] [] ;;; Ret tt)
           i refs) s = (Ok u, s', tr) ->
  map callee tr = map (fun _ => "print") (take (visited limit i) refs) /\
  map call_args tr = map (fun ref => [ref]) (take (visited limit i) refs).
Proof.
  revert i s tr. induction refs as [|ref refs IH]; intros i s tr H.
  - apply run_Ret_ok in H. destruct H as (_ & _ & ->).
    rewrite take_nil. auto.
  - cbn [enumerate_break bind call] in H. step_ok H.
    destruct (Z.ltb_spec limit i) as [Hi|Hi].
    + step_ok H. rewrite (visited_break _ _ Hi). auto.
    + destruct (IH _ _ _ H) as [E1 E2].
      rewrite (visited_continue _ _ Hi). simpl. rewrite E1, E2. auto.
Qed.

(** X15.  A loop that prints the references and breaks when [i > limit]
    shows limit + 2 of them, not limit: the cells with [i > 6] print the
    first eight references and the one with [i > 2] the first four, or
    all of them when there are fewer. *)
Theorem cell_print_refs_shows_limit_plus_two
    (S : Type) (w : world S) (s s' : S) limit datasetRefs (u : unit) tr :
  0 <= limit ->
  run w (cell_print_refs limit datasetRefs) s = (Ok u, s', tr) ->
  map callee tr
  = map (fun _ => "print") (take (Z.to_nat (limit + 2)) datasetRefs) /\
  map call_args tr
  = map (fun ref => [ref]) (take (Z.to_nat (limit + 2)) datasetRefs).
Proof.
  intros Hl H. apply print_refs_trace in H.
  replace (visited limit 0) with (Z.to_nat (limit + 2)) in H
    by (unfold visited; lia).
  exact H.
Qed.

Lemma cell_print_refs_shows_limit_plus_two_witness :
  map call_args
    (trace (run quiet_example
              (cell_print_refs 2 (map VObj [1; 2; 3; 4; 5; 6]%N)) tt))
  = [[VObj 1]; [VObj 2]; [VObj 3]; [VObj 4]].
Proof.
  refine (proj2 (cell_print_refs_shows_limit_plus_two unit quiet_example tt tt 2
                   (map VObj [1; 2; 3; 4; 5; 6]%N) tt _ _ eq_refl)).
  lia.
Defined.

(** X16.  The cell that prints file URIs asks the Butler for the URI of
    each of the first four references (of all, when there are fewer), in
    order, and prints every URI it got. *)
Theorem cell_file_uris_asks_four
    (S : Type) (w : world S) (s s' : S) butler datasetRefs (u : unit) tr :
  run w (cell_file_uris butler datasetRefs) s = (Ok u, s', tr) ->
  map call_args (calls_named "getURI" tr)
  = map (fun ref => [butler; ref]) (take 4 datasetRefs) /\
  map call_args (calls_named "print" tr)
  = map (fun c => VStr "File URI: "
                  :: match response c with Ok uri => [uri] | Raised _ => [] end)
        (calls_named "getURI" tr).
Proof.
  unfold cell_file_uris. change 4%nat with (visited 2 0).
  generalize 0 as i. revert s tr.
  induction datasetRefs as [|ref refs IH]; intros s tr i H.
  - apply run_Ret_ok in H. destruct H as (_ & _ & ->).
    rewrite take_nil. auto.
  - cbn [enumerate_break bind call method] in H. do 2 step_ok H.
    destruct (Z.ltb_spec 2 i) as [Hi|Hi].
    + step_ok H. rewrite (visited_break _ _ Hi). auto.
    + destruct (IH _ _ _ H) as [E1 E2].
      rewrite (visited_continue _ _ Hi).
      unfold calls_named in *.
      simpl. rewrite E1, E2. auto.
Qed.

Lemma cell_file_uris_asks_four_witness :
  map call_args
    (calls_named "getURI"
       (trace (run quiet_example
                 (cell_file_uris (VObj 9) (map VObj [1; 2; 3; 4; 5]%N)) tt)))
  = [[VObj 9; VObj 1]; [VObj 9; VObj 2]; [VObj 9; VObj 3]; [VObj 9; VObj 4]].
Proof.
  exact (proj1 (cell_file_uris_asks_four unit quiet_example tt tt (VObj 9)
                  (map VObj [1; 2; 3; 4; 5]%N) tt _ eq_refl)).
Defined.

(** X17.  The loop that looks for the DP0.1 schema stops at the first
    name in which [re.search] finds 'dp01': that name is bound to
    [dp01_schema_name], every name before it was searched without a
    match, and no later name is searched.  When no name matches, all
    names were searched and [dp01_schema_name] is left unbound. *)
Theorem find_schema_first_match
    (S : Type) (w : world S) (s s' : S) schema_names found tr :
  run w (find_schema schema_names) s = (Ok found, s', tr) ->
  match found with
  | Some name =>
      exists before after m,
        schema_names = before ++ name :: after /\ m <> VNone /\
        tr = map (fun n => mkCall "re.search" [VStr "dp01"; n] [] (Ok VNone))
               before
             ++ [mkCall "re.search" [VStr "dp01"; name] [] (Ok m)]
  | None =>
      tr = map (fun n => mkCall "re.search" [VStr "dp01"; n] [] (Ok VNone))
             schema_names
  end.
Proof.
  revert s tr. induction schema_names as [|n names IH]; intros s tr H.
  - apply run_Ret_ok in H. destruct H as (-> & _ & ->). reflexivity.
  - cbn [find_schema bind call] in H. step_ok H.
    destruct (is_none v) eqn:Hv; cbn [negb] in H.
    + destruct v; try discriminate Hv. specialize (IH _ _ H).
      destruct found as [name|].
      * destruct IH as (before & after & m & -> & Hm & ->).
        exists (n :: before), after, m. auto.
      * rewrite IH. reflexivity.
    + step_ok H. exists [], names, v. repeat split.
      intros ->. discriminate Hv.
Qed.

Lemma find_schema_first_match_witness :
  exists before after m,
    [VStr "tap_schema"; VStr "dp01_dc2_catalogs"; VStr "dp01_extra"]
    = before ++ VStr "dp01_dc2_catalogs" :: after /\ m <> VNone /\
    trace (run one_schema_matches
             (find_schema [VStr "tap_schema"; VStr "dp01_dc2_catalogs";
                           VStr "dp01_extra"]) tt)
    = map (fun n => mkCall "re.search" [VStr "dp01"; n] [] (Ok VNone)) before
      ++ [mkCall "re.search" [VStr "dp01"; VStr "dp01_dc2_catalogs"] []
            (Ok m)].
Proof.
  exact (find_schema_first_match unit one_schema_matches tt tt
           [VStr "tap_schema"; VStr "dp01_dc2_catalogs"; VStr "dp01_extra"]
           (Some (VStr "dp01_dc2_catalogs")) _ eq_refl).
Defined.

End BreakLoopFacts.
